(** * Metrics-query dispatch layer ([pkg/api/metrics.go])

    A shallow embedding of the two metrics-query handlers,
    [QueryMetricsV2] (POST /api/ds/query) and [QueryMetrics]
    (POST /api/tsdb/query), and of the diagnostics endpoint
    [GenerateError].

    The handlers talk to four collaborators: the data-source cache
    ([hs.DatasourceCache.GetDatasource]), the configuration
    ([hs.Cfg.IsExpressionsEnabled]), the time-series executor
    ([tsdb.HandleRequest]) and the expression evaluator
    ([expr.WrapTransformData]).  They are modelled as functions of the
    handler's environment, and every call a handler makes is recorded, in
    order, in a trace, so that "which collaborator was invoked, how often
    and with what" is a property of the handler's result.

    Logging ([hs.log.Debug]), the timing printouts ([time.Now],
    [fmt.Printf]) and the cancellation context handed to the backends do
    not influence the response and are left out.

    The development also covers the test-data endpoints of the same file
    ([GetTestDataScenarios], [GetTestDataRandomWalk]) and the list of
    items rendered by the pagination component ([Pagination.tsx]). *)

From Stdlib Require Import ZArith.
From stdpp Require Import base option strings list sorting gmap.

Local Open Scope Z_scope.
Local Open Scope string_scope.

(** ** The parameter bag of one sub-query *)

Module simplejson.

(** Modelled from the spec: the package [components/simplejson] is not
    among the sources.  A sub-query is an "opaque per-query parameter
    bag" from which typed values are pulled "with a fallback": a JSON
    object whose members are read by key. *)
Inductive Value :=
| Null
| Bool (b : bool)
| Number (n : Z)
| Text (s : string).

Abbreviation Json := (gmap string Value).

(** [j.Get(key)]: the member, or a wrapper around nil when absent. *)
Definition Get (j : Json) (key : string) : option Value := j !! key.

(** [MustString(def)]: the string, or [def] when the member is absent
    or not a string. *)
Definition MustString (v : option Value) (def : string) : string :=
  match v with
  | Some (Text s) => s
  | _ => def
  end.

(** [Int64()]: [None] stands for a non-nil [err]. *)
Definition Int64 (v : option Value) : option Z :=
  match v with
  | Some (Number n) => Some n
  | _ => None
  end.

(** [MustInt64(def)]. *)
Definition MustInt64 (v : option Value) (def : Z) : Z :=
  match Int64 v with
  | Some n => n
  | None => def
  end.

End simplejson.

(** ** Go errors *)

(** An [error] value: one of the two sentinels of package [models] that
    the handlers test for, a plain error, or an error wrapping a cause. *)
Inductive error :=
| ErrDataSourceAccessDenied
| ErrDataSourceNotFound
| errors_New (text : string)
| fmt_Errorf (text : string) (cause : error).

Definition error_eqb (a b : error) : bool :=
  match a, b with
  | ErrDataSourceAccessDenied, ErrDataSourceAccessDenied => true
  | ErrDataSourceNotFound, ErrDataSourceNotFound => true
  | _, _ => false
  end.

(** [errors.Is(err, target)] for a sentinel [target]: walks the chain of
    wrapped causes. *)
Fixpoint errors_Is (err target : error) : bool :=
  error_eqb err target ||
  match err with
  | fmt_Errorf _ cause => errors_Is cause target
  | _ => false
  end.

(** [err.Error()]. *)
Fixpoint Error_string (err : error) : string :=
  match err with
  | ErrDataSourceAccessDenied => "data source access denied"
  | ErrDataSourceNotFound => "data source not found"
  | errors_New text => text
  | fmt_Errorf text cause => text ++ ": " ++ Error_string cause
  end.

(** ** Package [models] *)

Module models.

Record SignedInUser := { UserId : Z; OrgId : Z }.

Record DataSource := { Id : Z; Type_ : string }.

Record ReqContext := { User : SignedInUser; SkipCache : bool }.

End models.

(** ** Package [dtos] *)

Module dtos.

Record MetricRequest := {
  From : string;
  To : string;
  Queries : list simplejson.Json;
  Debug : bool
}.

End dtos.

(** ** Package [tsdb] *)

Module tsdb.

Record TimeRange := { From : string; To : string }.

Definition NewTimeRange (from to : string) : TimeRange :=
  {| From := from; To := to |}.

(** [DataSource] is a pointer in the source: [None] is nil. *)
Record Query := {
  RefId : string;
  MaxDataPoints : Z;
  IntervalMs : Z;
  QueryType : string;
  Model : simplejson.Json;
  DataSource : option models.DataSource
}.

Record TsdbQuery := {
  TimeRange_ : TimeRange;
  Debug : bool;
  User : models.SignedInUser;
  Queries : list Query
}.

Record QueryResult := {
  Error : option error;
  ErrorString : string;
  ResultRefId : string;
  Payload : string
}.

(** Modelled from the spec: the declaration of [tsdb.Response] is not
    among the sources.  The envelope is a "mapping from reference id to
    QueryResult (insertion order preserved for stable rendering)" with
    an "optional aggregate message": the results are kept as the
    sequence of their entries, in the order in which [range] visits
    them. *)
Record Response := {
  Results : list (string * QueryResult);
  Message : string
}.

End tsdb.

(** ** Package [api]: responses *)

(** What a handler hands to the transport: an error document, a metrics
    envelope, or (for the diagnostics endpoint) a string. *)
Inductive Body :=
| ErrorBody (message : string) (err : option error)
| EnvelopeBody (resp : tsdb.Response)
| StringBody (s : string).

(** [NormalResponse] is buffered, [StreamingResponse] is what
    [jsonStreaming] builds. *)
Inductive Response :=
| NormalResponse (status : Z) (body : Body)
| StreamingResponse (status : Z) (body : Body).

Definition Status (r : Response) : Z :=
  match r with
  | NormalResponse status _ => status
  | StreamingResponse status _ => status
  end.

Definition ResponseBody (r : Response) : Body :=
  match r with
  | NormalResponse _ body => body
  | StreamingResponse _ body => body
  end.

(** [Error(status, message, err)]. *)
Definition Error (status : Z) (message : string) (err : option error) : Response :=
  NormalResponse status (ErrorBody message err).

(** [JSON(status, body)]. *)
Definition JSON (status : Z) (body : Body) : Response :=
  NormalResponse status body.

(** [jsonStreaming(status, body)]. *)
Definition jsonStreaming (status : Z) (body : Body) : Response :=
  StreamingResponse status body.

(** ** Collaborators and the record of their invocations *)

(** A Go result pair [(T, error)]: [inl] when [err == nil]. *)
Record Collaborators := {
  DatasourceCache_GetDatasource :
    Z → models.SignedInUser → bool → models.DataSource + error;
  Cfg_IsExpressionsEnabled : bool;
  tsdb_HandleRequest :
    option models.DataSource → tsdb.TsdbQuery → tsdb.Response + error;
  expr_WrapTransformData : tsdb.TsdbQuery → tsdb.Response + error
}.

Inductive Event :=
| GetDatasourceCall (id : Z) (user : models.SignedInUser) (skipCache : bool)
| IsExpressionsEnabledCall
| HandleRequestCall (ds : option models.DataSource) (req : tsdb.TsdbQuery)
| WrapTransformDataCall (req : tsdb.TsdbQuery).

(** The data-source ids the resolver was asked for, in order. *)
Fixpoint resolutions (trace : list Event) : list Z :=
  match trace with
  | [] => []
  | GetDatasourceCall id _ _ :: rest => id :: resolutions rest
  | _ :: rest => resolutions rest
  end.

(** A backend collaborator is the time-series executor or the expression
    evaluator. *)
Definition isBackendCall (e : Event) : bool :=
  match e with
  | HandleRequestCall _ _ | WrapTransformDataCall _ => true
  | _ => false
  end.

Definition isExpressionCall (e : Event) : bool :=
  match e with
  | WrapTransformDataCall _ | IsExpressionsEnabledCall => true
  | _ => false
  end.

Definition noBackendCall (trace : list Event) : Prop :=
  existsb isBackendCall trace = false.

(** ** The handler monad: a trace of calls, and an early [return] *)

(** A computation yields the calls made so far and either a value to go
    on with ([inl]) or the response of a [return] statement ([inr]). *)
Definition Handler (A : Type) : Type := list Event * (A + Response).

Global Instance Handler_ret : MRet Handler := λ A a, ([], inl a).

Global Instance Handler_bind : MBind Handler := λ A B f m,
  match m.2 with
  | inl a => ((m.1 ++ (f a).1)%list, (f a).2)
  | inr r => (m.1, inr r)
  end.

Definition Return {A : Type} (r : Response) : Handler A := ([], inr r).

(** Running a handler body: the trace and the response, whichever way the
    body was left. *)
Definition run (m : Handler Response) : list Event * Response :=
  (m.1, match m.2 with inl r => r | inr r => r end).

Section Calls.

Variable w : Collaborators.

Definition GetDatasource (id : Z) (user : models.SignedInUser) (skipCache : bool)
  : Handler (models.DataSource + error) :=
  ([GetDatasourceCall id user skipCache],
   inl (DatasourceCache_GetDatasource w id user skipCache)).

Definition IsExpressionsEnabled : Handler bool :=
  ([IsExpressionsEnabledCall], inl (Cfg_IsExpressionsEnabled w)).

Definition HandleRequest (ds : option models.DataSource) (req : tsdb.TsdbQuery)
  : Handler (tsdb.Response + error) :=
  ([HandleRequestCall ds req], inl (tsdb_HandleRequest w ds req)).

Definition WrapTransformData (req : tsdb.TsdbQuery)
  : Handler (tsdb.Response + error) :=
  ([WrapTransformDataCall req], inl (expr_WrapTransformData w req)).

End Calls.

(** ** The result aggregation loop

    [for _, res := range resp.Results { if res.Error != nil { ... } }]:
    the loop of both handlers, threading [statusCode] and [resp.Message]
    and rebuilding the visited results. *)
Fixpoint aggregateResults (results : list (string * tsdb.QueryResult))
    (statusCode : Z) (message : string)
    : Z * string * list (string * tsdb.QueryResult) :=
  match results with
  | [] => (statusCode, message, [])
  | (key, res) :: rest =>
      match tsdb.Error res with
      | Some err =>
          let res' := {| tsdb.Error := tsdb.Error res;
                         tsdb.ErrorString := Error_string err;
                         tsdb.ResultRefId := tsdb.ResultRefId res;
                         tsdb.Payload := tsdb.Payload res |} in
          let '(statusCode', message', rest') :=
            aggregateResults rest 400 (tsdb.ErrorString res') in
          (statusCode', message', (key, res') :: rest')
      | None =>
          let '(statusCode', message', rest') :=
            aggregateResults rest statusCode message in
          (statusCode', message', (key, res) :: rest')
      end
  end.

(** [statusCode := 200] followed by the loop; the envelope that is
    serialised is the one the loop has written to. *)
Definition aggregate (resp : tsdb.Response) : Z * tsdb.Response :=
  let '(statusCode, message, results) :=
    aggregateResults (tsdb.Results resp) 200 (tsdb.Message resp) in
  (statusCode, {| tsdb.Results := results; tsdb.Message := message |}).

(** ** The handlers *)

Section Handlers.

(** [expr.DatasourceName], the reserved name of the expression engine;
    package [expr] is not among the sources. *)
Variable DatasourceName : string.

Variable w : Collaborators.

(** The descriptor [QueryMetricsV2] appends for one sub-query. *)
Definition newQueryV2 (query : simplejson.Json) (ds : option models.DataSource)
  : tsdb.Query :=
  {| tsdb.RefId := simplejson.MustString (simplejson.Get query "refId") "A";
     tsdb.MaxDataPoints := simplejson.MustInt64 (simplejson.Get query "maxDataPoints") 100;
     tsdb.IntervalMs := simplejson.MustInt64 (simplejson.Get query "intervalMs") 1000;
     tsdb.QueryType := simplejson.MustString (simplejson.Get query "queryType") "";
     tsdb.Model := query;
     tsdb.DataSource := ds |}.

(** The descriptor [QueryMetrics] appends: [QueryType] keeps its zero
    value. *)
Definition newQuery (query : simplejson.Json) (ds : option models.DataSource)
  : tsdb.Query :=
  {| tsdb.RefId := simplejson.MustString (simplejson.Get query "refId") "A";
     tsdb.MaxDataPoints := simplejson.MustInt64 (simplejson.Get query "maxDataPoints") 100;
     tsdb.IntervalMs := simplejson.MustInt64 (simplejson.Get query "intervalMs") 1000;
     tsdb.QueryType := "";
     tsdb.Model := query;
     tsdb.DataSource := ds |}.

(** The loop [for i, query := range reqDTO.Queries] of [QueryMetricsV2],
    from index [i] on, with the current values of [hasExpr], [ds] and
    [request.Queries]. *)
Fixpoint processQueries (c : models.ReqContext) (i : nat)
    (queries : list simplejson.Json) (hasExpr : bool)
    (ds : option models.DataSource) (requestQueries : list tsdb.Query)
    : Handler (bool * option models.DataSource * list tsdb.Query) :=
  match queries with
  | [] => mret (hasExpr, ds, requestQueries)
  | query :: rest =>
      let name := simplejson.MustString (simplejson.Get query "datasource") "" in
      let hasExpr := if String.eqb name DatasourceName then true else hasExpr in
      match simplejson.Int64 (simplejson.Get query "datasourceId") with
      | None => Return (Error 400 "Query missing data source ID" None)
      | Some datasourceID =>
          ds ← (if Nat.eqb i 0 && negb hasExpr then
                  r ← GetDatasource w datasourceID (models.User c) (models.SkipCache c);
                  match r with
                  | inr err =>
                      if errors_Is err ErrDataSourceAccessDenied then
                        Return (Error 403 "Access denied to data source" (Some err))
                      else if errors_Is err ErrDataSourceNotFound then
                        Return (Error 400 "Invalid data source ID" (Some err))
                      else
                        Return (Error 500 "Unable to load data source metadata" (Some err))
                  | inl found => mret (Some found)
                  end
                else mret ds);
          processQueries c (S i) rest hasExpr ds
            (requestQueries ++ [newQueryV2 query ds])%list
      end
  end.

(** POST /api/ds/query *)
Definition QueryMetricsV2 (c : models.ReqContext) (reqDTO : dtos.MetricRequest)
  : Handler Response :=
  if Nat.eqb (length (dtos.Queries reqDTO)) 0 then
    Return (Error 400 "No queries found in query" None)
  else
    '(hasExpr, ds, requestQueries) ←
      processQueries c 0 (dtos.Queries reqDTO) false None [];
    let request :=
      {| tsdb.TimeRange_ := tsdb.NewTimeRange (dtos.From reqDTO) (dtos.To reqDTO);
         tsdb.Debug := dtos.Debug reqDTO;
         tsdb.User := models.User c;
         tsdb.Queries := requestQueries |} in
    resp ← (if negb hasExpr then
              r ← HandleRequest w ds request;
              match r with
              | inr err => Return (Error 500 "Metric request error" (Some err))
              | inl resp => mret resp
              end
            else
              enabled ← IsExpressionsEnabled w;
              if negb enabled then
                Return (Error 404 "Expressions feature toggle is not enabled" None)
              else
                r ← WrapTransformData w request;
                match r with
                | inr err => Return (Error 500 "Transform request error" (Some err))
                | inl resp => mret resp
                end);
    let '(statusCode, resp) := aggregate resp in
    mret (jsonStreaming statusCode (EnvelopeBody resp)).

(** POST /api/tsdb/query *)
Definition QueryMetrics (c : models.ReqContext) (reqDto : dtos.MetricRequest)
  : Handler Response :=
  let timeRange := tsdb.NewTimeRange (dtos.From reqDto) (dtos.To reqDto) in
  match dtos.Queries reqDto with
  | [] => Return (Error 400 "No queries found in query" None)
  | first :: _ =>
      match simplejson.Int64 (simplejson.Get first "datasourceId") with
      | None => Return (Error 400 "Query missing datasourceId" None)
      | Some datasourceId =>
          r ← GetDatasource w datasourceId (models.User c) (models.SkipCache c);
          match r with
          | inr err =>
              if errors_Is err ErrDataSourceAccessDenied then
                Return (Error 403 "Access denied to datasource" (Some err))
              else
                Return (Error 500 "Unable to load datasource meta data" (Some err))
          | inl ds =>
              let request :=
                {| tsdb.TimeRange_ := timeRange;
                   tsdb.Debug := dtos.Debug reqDto;
                   tsdb.User := models.User c;
                   tsdb.Queries :=
                     map (λ query, newQuery query (Some ds)) (dtos.Queries reqDto) |} in
              r ← HandleRequest w (Some ds) request;
              match r with
              | inr err => Return (Error 500 "Metric request error" (Some err))
              | inl resp =>
                  let '(statusCode, resp) := aggregate resp in
                  mret (JSON statusCode (EnvelopeBody resp))
              end
          end
      end
  end.

End Handlers.

(** [GenerateError]: [array] is the nil slice, and [array[20]] is
    evaluated before [JSON] is called.  [None] is the run-time panic
    "index out of range". *)
Definition GenerateError (c : models.ReqContext) : option Response :=
  let array : list string := [] in
  element ← array !! 20%nat;
  Some (JSON 200 (StringBody element)).

(** ** Vocabulary of the specification *)

(** The sub-query carries a data-source identifier. *)
Definition hasDatasourceID (query : simplejson.Json) : bool :=
  match simplejson.Int64 (simplejson.Get query "datasourceId") with
  | Some _ => true
  | None => false
  end.

(** The sub-query's declared data-source name is the reserved name of the
    expression engine. *)
Definition namesExpression (sentinel : string) (query : simplejson.Json) : bool :=
  String.eqb (simplejson.MustString (simplejson.Get query "datasource") "") sentinel.

(** Classification rule: a batch is an expression batch if any sub-query
    names the expression engine; otherwise it is direct. *)
Definition isExpressionBatch (sentinel : string) (queries : list simplejson.Json) : bool :=
  existsb (namesExpression sentinel) queries.

(** The sub-result carries a non-nil error. *)
Definition carriesError (res : tsdb.QueryResult) : bool :=
  match tsdb.Error res with
  | Some _ => true
  | None => false
  end.

(** The error of a sub-result, stringified into its error-message field. *)
Definition withErrorString (res : tsdb.QueryResult) : tsdb.QueryResult :=
  match tsdb.Error res with
  | Some err =>
      {| tsdb.Error := Some err;
         tsdb.ErrorString := Error_string err;
         tsdb.ResultRefId := tsdb.ResultRefId res;
         tsdb.Payload := tsdb.Payload res |}
  | None => res
  end.

(** The error of the last sub-result that carries one, in the order of
    the envelope. *)
Definition lastError (results : list (string * tsdb.QueryResult)) : option error :=
  last (omap (λ entry, tsdb.Error entry.2) results).

(** The envelope the aggregator is specified to produce. *)
Definition aggregatedEnvelope (resp : tsdb.Response) : tsdb.Response :=
  {| tsdb.Results := map (λ entry, (entry.1, withErrorString entry.2)) (tsdb.Results resp);
     tsdb.Message :=
       match lastError (tsdb.Results resp) with
       | Some err => Error_string err
       | None => tsdb.Message resp
       end |}.

(** The status the aggregator is specified to produce. *)
Definition aggregatedStatus (resp : tsdb.Response) : Z :=
  if existsb (λ entry, carriesError entry.2) (tsdb.Results resp) then 400 else 200.

(** The request both handlers build around the sub-query descriptors. *)
Definition requestOf (c : models.ReqContext) (reqDTO : dtos.MetricRequest)
    (queries : list tsdb.Query) : tsdb.TsdbQuery :=
  {| tsdb.TimeRange_ := tsdb.NewTimeRange (dtos.From reqDTO) (dtos.To reqDTO);
     tsdb.Debug := dtos.Debug reqDTO;
     tsdb.User := models.User c;
     tsdb.Queries := queries |}.


(** The batch with every declared data-source name overwritten. *)
Definition renamed (name : simplejson.Value) (reqDTO : dtos.MetricRequest)
    : dtos.MetricRequest :=
  {| dtos.From := dtos.From reqDTO;
     dtos.To := dtos.To reqDTO;
     dtos.Queries := map (λ query, <["datasource" := name]> query) (dtos.Queries reqDTO);
     dtos.Debug := dtos.Debug reqDTO |}.

(** The error of the resolution [QueryMetricsV2] attempts for the batch,
    when it attempts one and it fails: the resolution is attempted for the
    first sub-query, if that one carries an identifier and does not name
    the expression engine. *)
Definition firstResolutionError (sentinel : string) (w : Collaborators)
    (c : models.ReqContext) (queries : list simplejson.Json) : option error :=
  match queries with
  | [] => None
  | first :: _ =>
      if namesExpression sentinel first then None
      else
        match simplejson.Int64 (simplejson.Get first "datasourceId") with
        | None => None
        | Some id =>
            match DatasourceCache_GetDatasource w id (models.User c) (models.SkipCache c) with
            | inl _ => None
            | inr err => Some err
            end
        end
  end.

(** ** The handlers in normal form

    What a run of a handler amounts to, case by case: the calls it makes
    and the response it returns.  [QueryMetricsV2_dispatch] and
    [QueryMetrics_dispatch] below prove that the handlers above compute
    exactly this. *)

Definition missingDataSourceID : Response :=
  Error 400 "Query missing data source ID" None.

(** How [QueryMetricsV2] answers a failed resolution. *)
Definition resolutionFailureV2 (err : error) : Response :=
  if errors_Is err ErrDataSourceAccessDenied then
    Error 403 "Access denied to data source" (Some err)
  else if errors_Is err ErrDataSourceNotFound then
    Error 400 "Invalid data source ID" (Some err)
  else Error 500 "Unable to load data source metadata" (Some err).

(** How [QueryMetrics] answers a failed resolution. *)
Definition resolutionFailure (err : error) : Response :=
  if errors_Is err ErrDataSourceAccessDenied then
    Error 403 "Access denied to datasource" (Some err)
  else Error 500 "Unable to load datasource meta data" (Some err).

(** The direct path: one call of the time-series executor, then the
    aggregation, emitted by [emit]. *)
Definition directPath (w : Collaborators) (emit : Z → Body → Response)
    (ds : option models.DataSource) (request : tsdb.TsdbQuery)
    : list Event * Response :=
  ([HandleRequestCall ds request],
   match tsdb_HandleRequest w ds request with
   | inr err => Error 500 "Metric request error" (Some err)
   | inl resp => emit (aggregate resp).1 (EnvelopeBody (aggregate resp).2)
   end).

(** The expression path: the feature toggle, then one call of the
    expression evaluator, then the aggregation. *)
Definition expressionPath (w : Collaborators) (request : tsdb.TsdbQuery)
    : list Event * Response :=
  if Cfg_IsExpressionsEnabled w then
    ([IsExpressionsEnabledCall; WrapTransformDataCall request],
     match expr_WrapTransformData w request with
     | inr err => Error 500 "Transform request error" (Some err)
     | inl resp => jsonStreaming (aggregate resp).1 (EnvelopeBody (aggregate resp).2)
     end)
  else
    ([IsExpressionsEnabledCall],
     Error 404 "Expressions feature toggle is not enabled" None).

Definition dispatchV2 (sentinel : string) (w : Collaborators)
    (c : models.ReqContext) (reqDTO : dtos.MetricRequest) : list Event * Response :=
  match dtos.Queries reqDTO with
  | [] => ([], Error 400 "No queries found in query" None)
  | first :: rest =>
      match simplejson.Int64 (simplejson.Get first "datasourceId") with
      | None => ([], missingDataSourceID)
      | Some id =>
          if namesExpression sentinel first then
            if forallb hasDatasourceID rest then
              expressionPath w
                (requestOf c reqDTO
                   (map (λ query, newQueryV2 query None) (first :: rest)))
            else ([], missingDataSourceID)
          else
            let resolution := GetDatasourceCall id (models.User c) (models.SkipCache c) in
            match DatasourceCache_GetDatasource w id (models.User c) (models.SkipCache c) with
            | inr err => ([resolution], resolutionFailureV2 err)
            | inl ds =>
                if forallb hasDatasourceID rest then
                  let request :=
                    requestOf c reqDTO
                      (map (λ query, newQueryV2 query (Some ds)) (first :: rest)) in
                  let routed :=
                    if isExpressionBatch sentinel rest then expressionPath w request
                    else directPath w jsonStreaming (Some ds) request in
                  (resolution :: routed.1, routed.2)
                else ([resolution], missingDataSourceID)
            end
      end
  end.

Definition dispatchLegacy (w : Collaborators)
    (c : models.ReqContext) (reqDto : dtos.MetricRequest) : list Event * Response :=
  match dtos.Queries reqDto with
  | [] => ([], Error 400 "No queries found in query" None)
  | first :: rest =>
      match simplejson.Int64 (simplejson.Get first "datasourceId") with
      | None => ([], Error 400 "Query missing datasourceId" None)
      | Some id =>
          let resolution := GetDatasourceCall id (models.User c) (models.SkipCache c) in
          match DatasourceCache_GetDatasource w id (models.User c) (models.SkipCache c) with
          | inr err => ([resolution], resolutionFailure err)
          | inl ds =>
              let routed :=
                directPath w JSON (Some ds)
                  (requestOf c reqDto
                     (map (λ query, newQuery query (Some ds)) (first :: rest))) in
              (resolution :: routed.1, routed.2)
          end
      end
  end.

(** ** Concrete batches and collaborators *)

Module Fixtures.

Import simplejson.

Definition sentinel : string := "__expr__".

Definition c : models.ReqContext :=
  {| models.User := {| models.UserId := 7; models.OrgId := 1 |};
     models.SkipCache := false |}.

Definition prometheus : models.DataSource :=
  {| models.Id := 1; models.Type_ := "prometheus" |}.

(** Id 1 is readable, id 2 exists but is denied, anything else is
    unknown. *)
Definition cache (id : Z) (user : models.SignedInUser) (skipCache : bool)
  : models.DataSource + error :=
  if Z.eqb id 1 then inl prometheus
  else if Z.eqb id 2 then inr (fmt_Errorf "org 1" ErrDataSourceAccessDenied)
  else inr ErrDataSourceNotFound.

Definition subQuery (name : string) (id : Z) (refId : string) : Json :=
  <["datasource" := Text name]> (<["datasourceId" := Number id]> (<["refId" := Text refId]> ∅)).

Definition queryA : Json := subQuery "prom" 1 "A".
Definition queryB : Json := subQuery "prom" 1 "B".
Definition deniedQuery : Json := subQuery "secret" 2 "A".
Definition unknownQuery : Json := subQuery "gone" 3 "A".
Definition exprQuery : Json := subQuery sentinel (-100) "B".

(** A sub-query without [datasourceId]. *)
Definition noIdQuery : Json := <["refId" := Text "C"]> ∅.

(** A sub-query that names the expression engine and has no
    [datasourceId]. *)
Definition exprNoIdQuery : Json :=
  <["datasource" := Text sentinel]> (<["refId" := Text "A"]> ∅).

Definition batch (queries : list Json) : dtos.MetricRequest :=
  {| dtos.From := "now-1h"; dtos.To := "now";
     dtos.Queries := queries; dtos.Debug := false |}.

Definition succeeded (refId : string) : string * tsdb.QueryResult :=
  (refId, {| tsdb.Error := None; tsdb.ErrorString := "";
             tsdb.ResultRefId := refId; tsdb.Payload := "series" |}).

Definition failed (refId text : string) : string * tsdb.QueryResult :=
  (refId, {| tsdb.Error := Some (errors_New text); tsdb.ErrorString := "";
             tsdb.ResultRefId := refId; tsdb.Payload := "" |}).

Definition cleanEnvelope : tsdb.Response :=
  {| tsdb.Results := [succeeded "A"]; tsdb.Message := "" |}.

Definition partialEnvelope : tsdb.Response :=
  {| tsdb.Results := [failed "A" "boom"; succeeded "B"; failed "C" "bang"];
     tsdb.Message := "" |}.

(** Collaborators whose backends answer [envelope] to every request. *)
Definition world (enabled : bool) (envelope : tsdb.Response) : Collaborators :=
  {| DatasourceCache_GetDatasource := cache;
     Cfg_IsExpressionsEnabled := enabled;
     tsdb_HandleRequest := λ _ _, inl envelope;
     expr_WrapTransformData := λ _, inl envelope |}.

(** Expressions enabled, every sub-query succeeds. *)
Definition healthy : Collaborators := world true cleanEnvelope.

(** Expressions enabled, two of three sub-queries fail. *)
Definition failing : Collaborators := world true partialEnvelope.

(** Expressions disabled. *)
Definition disabled : Collaborators := world false cleanEnvelope.

Definition emptyBatch : dtos.MetricRequest := batch [].
Definition directBatch : dtos.MetricRequest := batch [queryA; queryB].
Definition mixedBatch : dtos.MetricRequest := batch [queryA; exprQuery].
Definition expressionFirstBatch : dtos.MetricRequest := batch [exprQuery; queryA].
Definition unidentifiedExpressionBatch : dtos.MetricRequest := batch [exprNoIdQuery].
Definition deniedExpressionBatch : dtos.MetricRequest := batch [deniedQuery; exprQuery].
Definition deniedThenUnidentifiedBatch : dtos.MetricRequest := batch [deniedQuery; noIdQuery].
Definition identifiedThenUnidentifiedBatch : dtos.MetricRequest := batch [queryA; noIdQuery].
Definition unidentifiedFirstBatch : dtos.MetricRequest := batch [noIdQuery; queryA].
Definition unknownBatch : dtos.MetricRequest := batch [unknownQuery].

(** The same collaborators with an expression evaluator that fails. *)
Definition withBrokenEvaluator (w : Collaborators) : Collaborators :=
  {| DatasourceCache_GetDatasource := DatasourceCache_GetDatasource w;
     Cfg_IsExpressionsEnabled := Cfg_IsExpressionsEnabled w;
     tsdb_HandleRequest := tsdb_HandleRequest w;
     expr_WrapTransformData := λ _, inr (errors_New "evaluator down") |}.

End Fixtures.

(** ** The test-data endpoints *)

Module testdatasource.

(** Modelled from the spec: package [tsdb/testdatasource] is not among
    the sources; a scenario of the "package-wide lookup table" is taken
    with the four fields [GetTestDataScenarios] reads. *)
Record Scenario := {
  Id : string;
  Name : string;
  Description : string;
  StringInput : string
}.

End testdatasource.

(** The order of Go strings, byte by byte. *)
Definition string_le (a b : string) : Prop := String.leb a b = true.

Global Instance string_le_dec (a b : string) : Decision (string_le a b).
Proof. unfold string_le. apply _. Defined.

(** [sort.Strings]: the strings in increasing order.  Package [sort] is
    not among the sources; whatever algorithm it runs, the outcome is the
    one sorted rearrangement of its input ([sort_Strings_unique]). *)
Definition sort_Strings (l : list string) : list string :=
  merge_sort string_le l.

(** The document appended for one scenario. *)
Definition scenarioDocument (scenario : testdatasource.Scenario) : gmap string string :=
  <["id" := testdatasource.Id scenario]>
    (<["name" := testdatasource.Name scenario]>
       (<["description" := testdatasource.Description scenario]>
          (<["stringInput" := testdatasource.StringInput scenario]> ∅))).

(** The second loop of [GetTestDataScenarios].  Looking up an id that is
    not registered yields a nil scenario, and reading its fields panics
    ([None]). *)
Fixpoint appendScenarios (ScenarioRegistry : gmap string testdatasource.Scenario)
    (scenarioIds : list string) (result : list (gmap string string))
    : option (list (gmap string string)) :=
  match scenarioIds with
  | [] => Some result
  | scenarioId :: rest =>
      scenario ← ScenarioRegistry !! scenarioId;
      appendScenarios ScenarioRegistry rest (result ++ [scenarioDocument scenario])%list
  end.

(** GET /api/tsdb/testdata/scenarios.  [visited] is the sequence of keys
    in the order in which [range] happens to yield them; the response
    [JSON(200, &result)] is given by its status and its body. *)
Definition GetTestDataScenarios (ScenarioRegistry : gmap string testdatasource.Scenario)
    (visited : list string) : option (Z * list (gmap string string)) :=
  let scenarioIds := fold_left (λ ids id, (ids ++ [id])%list) visited [] in
  let scenarioIds := sort_Strings scenarioIds in
  result ← appendScenarios ScenarioRegistry scenarioIds [];
  Some (200, result).

(** The keys of the registry, in some order without repetition. *)
Definition visitsRegistry (ScenarioRegistry : gmap string testdatasource.Scenario)
    (visited : list string) : Prop :=
  visited ≡ₚ (map_to_list ScenarioRegistry).*1.

(** GET /api/tsdb/testdata/random-walk.  [from], [to] and [intervalMs] are
    what [c.Query] and [c.QueryInt64] return; [noUser] stands for the nil
    [User] of a request built without one. *)
Definition GetTestDataRandomWalk (w : Collaborators) (noUser : models.SignedInUser)
    (from to : string) (intervalMs : Z) : Handler Response :=
  let timeRange := tsdb.NewTimeRange from to in
  let dsInfo := {| models.Id := 0; models.Type_ := "testdata" |} in
  let request :=
    {| tsdb.TimeRange_ := timeRange;
       tsdb.Debug := false;
       tsdb.User := noUser;
       tsdb.Queries :=
         [{| tsdb.RefId := "A";
             tsdb.MaxDataPoints := 0;
             tsdb.IntervalMs := intervalMs;
             tsdb.QueryType := "";
             tsdb.Model := {["scenario" := simplejson.Text "random_walk"]};
             tsdb.DataSource := Some dsInfo |}] |} in
  r ← HandleRequest w (Some dsInfo) request;
  match r with
  | inr err => Return (Error 500 "Metric request error" (Some err))
  | inl resp => mret (JSON 200 (EnvelopeBody resp))
  end.

(** ** The pagination component ([Pagination.tsx])

    The list of items the component renders between its two arrow
    buttons.  [numberOfPages] is the length of a JavaScript array, a
    natural number; [currentPage] is taken to be an integer. *)

Module Pagination.

Inductive ButtonVariant := primary | secondary.

(** A list item: a page button (its key, its label and the page it
    navigates to are all [page]) or an ellipsis with key [page]. *)
Inductive ListItem :=
| PageButton (page : Z) (variant : ButtonVariant)
| Ellipsis (page : Z).

Definition key (item : ListItem) : Z :=
  match item with
  | PageButton page _ => page
  | Ellipsis page => page
  end.

Definition PAGE_LENGTH_TO_CONDENSE : Z := 10.

(** [[...new Array(numberOfPages).keys()]] *)
Definition pages (numberOfPages : nat) : list Z :=
  map Z.of_nat (seq 0 numberOfPages).

Definition getListItem (page : Z) (variant : ButtonVariant) : ListItem :=
  PageButton page variant.

(** The callback of [pages.reduce]. *)
Definition reducer (currentPage : Z) (numberOfPages : nat)
    (pagesToRender : list ListItem) (pageIndex : Z) : list ListItem :=
  let condensePages := (Z.of_nat numberOfPages >=? PAGE_LENGTH_TO_CONDENSE)%Z in
  let page := pageIndex + 1 in
  let variant := if (page =? currentPage)%Z then primary else secondary in
  if condensePages then
    if (page =? 1)%Z || (page =? Z.of_nat numberOfPages)%Z
       || ((page >=? currentPage - 2)%Z && (page <=? currentPage + 2)%Z) then
      (pagesToRender ++ [getListItem page variant])%list
    else if (page =? currentPage - 3)%Z || (page =? currentPage + 3)%Z then
      (pagesToRender ++ [Ellipsis page])%list
    else pagesToRender
  else (pagesToRender ++ [getListItem page variant])%list.

Definition listItems (currentPage : Z) (numberOfPages : nat) : list ListItem :=
  fold_left (reducer currentPage numberOfPages) (pages numberOfPages) [].

(** An arrow button: the page [onNavigate] is called with, and whether
    the button is disabled. *)
Record Arrow := { target : Z; disabled : bool }.

Definition previous (currentPage : Z) : Arrow :=
  {| target := currentPage - 1; disabled := (currentPage =? 1)%Z |}.

Definition next (currentPage : Z) (numberOfPages : nat) : Arrow :=
  {| target := currentPage + 1; disabled := (currentPage =? Z.of_nat numberOfPages)%Z |}.

(** What the reducer contributes for one page number. *)
Definition itemFor (currentPage : Z) (numberOfPages : nat) (page : Z) : option ListItem :=
  let variant := if (page =? currentPage)%Z then primary else secondary in
  if (Z.of_nat numberOfPages <? 10)%Z then Some (PageButton page variant)
  else if (page =? 1)%Z || (page =? Z.of_nat numberOfPages)%Z
          || ((currentPage - 2 <=? page)%Z && (page <=? currentPage + 2)%Z) then
    Some (PageButton page variant)
  else if (page =? currentPage - 3)%Z || (page =? currentPage + 3)%Z then
    Some (Ellipsis page)
  else None.

(** The page numbers [1 .. numberOfPages]. *)
Definition pageNumbers (numberOfPages : nat) : list Z :=
  map (λ index : nat, Z.of_nat index + 1) (seq 0 numberOfPages).

End Pagination.

(** ** Further concrete collaborators and registries *)

Module Samples.

(** The same collaborators with a time-series executor that fails. *)
Definition withBrokenExecutor (w : Collaborators) : Collaborators :=
  {| DatasourceCache_GetDatasource := DatasourceCache_GetDatasource w;
     Cfg_IsExpressionsEnabled := Cfg_IsExpressionsEnabled w;
     tsdb_HandleRequest := λ _ _, inr (errors_New "executor down");
     expr_WrapTransformData := expr_WrapTransformData w |}.



(** A sub-query that declares a query type. *)
Definition typedQuery : simplejson.Json :=
  <["queryType" := simplejson.Text "range"]> Fixtures.queryA.

Definition randomWalk : testdatasource.Scenario :=
  {| testdatasource.Id := "random_walk"; testdatasource.Name := "Random Walk";
     testdatasource.Description := ""; testdatasource.StringInput := "" |}.

Definition csvMetricValues : testdatasource.Scenario :=
  {| testdatasource.Id := "csv_metric_values"; testdatasource.Name := "CSV Metric Values";
     testdatasource.Description := ""; testdatasource.StringInput := "1,20,90,30,5,0" |}.

Definition registry : gmap string testdatasource.Scenario :=
  <["random_walk" := randomWalk]> (<["csv_metric_values" := csvMetricValues]> ∅).

End Samples.

(** ** Proof automation *)

(** Unfolds the monad and the collaborator calls down to pairs of a trace
    and a result. *)
Ltac handler_unfold :=
  unfold mbind, mret, Handler_bind, Handler_ret, Return,
    GetDatasource, IsExpressionsEnabled, HandleRequest, WrapTransformData in *;
  simpl in *.


(** Closes a goal whose premise finds a call in a trace that does not
    contain it. *)
Ltac absent_call :=
  let Hcall := fresh "Hcall" in
  intros Hcall; simpl in Hcall;
  repeat (destruct Hcall as [Hcall | Hcall]; [discriminate Hcall | ]);
  destruct Hcall.

(** Rewrites the goal with the equations recorded for the cases. *)
Ltac use_cases :=
  repeat match goal with
         | Heq : ?lhs = _ |- context [?lhs] => rewrite Heq
         end.

(** Splits the normal form of a handler run into its cases. *)
Ltac dispatch_cases :=
  unfold dispatchV2, dispatchLegacy, expressionPath, directPath,
    firstResolutionError in *;
  repeat case_match; simpl in *.

(** ** The handler monad *)

Lemma bind_mret {A B : Type} (a : A) (f : A → Handler B) :
  (mret a ≫= f) = f a.
Proof. handler_unfold. by destruct (f a). Qed.

Lemma bind_Return {A B : Type} (r : Response) (f : A → Handler B) :
  (Return r ≫= f) = Return r.
Proof. reflexivity. Qed.

Lemma bind_call {A B : Type} (e : Event) (a : A) (f : A → Handler B) :
  (([e], inl a) : Handler A) ≫= f = (e :: (f a).1, (f a).2).
Proof. reflexivity. Qed.

(** ** Go errors *)

(** A chain of causes ends in one error: it cannot match both sentinels. *)
Lemma errors_Is_exclusive (err : error) :
  errors_Is err ErrDataSourceNotFound = true →
  errors_Is err ErrDataSourceAccessDenied = false.
Proof.
  induction err as [ | | text | text cause IH]; simpl; auto; discriminate.
Qed.

(** ** The sub-query loop of [QueryMetricsV2] *)

(** After the first iteration the loop calls no collaborator: it stops at
    the first sub-query without identifier, and otherwise appends one
    descriptor per sub-query, all with the same [ds]. *)
Lemma processQueries_rest (sentinel : string) (w : Collaborators)
    (c : models.ReqContext) (rest : list simplejson.Json) :
  ∀ (i : nat) (hasExpr : bool) (ds : option models.DataSource)
    (requestQueries : list tsdb.Query),
    processQueries sentinel w c (S i) rest hasExpr ds requestQueries =
    if forallb hasDatasourceID rest then
      mret (hasExpr || isExpressionBatch sentinel rest, ds,
            (requestQueries ++ map (λ query, newQueryV2 query ds) rest)%list)
    else Return (Error 400 "Query missing data source ID" None).
Proof.
  induction rest as [ | query rest IH]; intros i hasExpr ds requestQueries.
  - simpl. by rewrite orb_false_r, app_nil_r.
  - simpl. unfold hasDatasourceID at 1, namesExpression at 1.
    destruct (simplejson.Int64 _) as [datasourceID | ]; [ | reflexivity].
    handler_unfold. rewrite IH.
    destruct (forallb hasDatasourceID rest); [ | reflexivity].
    handler_unfold. rewrite <- app_assoc. simpl.
    by destruct (String.eqb _ sentinel), hasExpr.
Qed.

(** ** The aggregation loop *)

(** The loop, whatever [statusCode] and [resp.Message] are when it
    starts. *)
Lemma aggregateResults_spec (results : list (string * tsdb.QueryResult)) :
  ∀ (statusCode : Z) (message : string),
    aggregateResults results statusCode message =
    (if existsb (λ entry, carriesError entry.2) results then 400 else statusCode,
     match lastError results with
     | Some err => Error_string err
     | None => message
     end,
     map (λ entry, (entry.1, withErrorString entry.2)) results).
Proof.
  unfold lastError.
  induction results as [ | [key res] results IH]; intros statusCode message.
  - reflexivity.
  - simpl. unfold carriesError at 1, withErrorString at 1.
    destruct (tsdb.Error res) as [err | ] eqn:Herr; simpl; rewrite IH.
    + rewrite last_cons.
      by destruct (existsb _ results), (last _).
    + reflexivity.
Qed.

Lemma aggregate_spec (resp : tsdb.Response) :
  aggregate resp = (aggregatedStatus resp, aggregatedEnvelope resp).
Proof.
  unfold aggregate, aggregatedStatus, aggregatedEnvelope.
  by rewrite aggregateResults_spec.
Qed.

(** ** The handlers compute their normal form *)

Lemma QueryMetricsV2_dispatch (sentinel : string) (w : Collaborators)
    (c : models.ReqContext) (reqDTO : dtos.MetricRequest) :
  run (QueryMetricsV2 sentinel w c reqDTO) = dispatchV2 sentinel w c reqDTO.
Proof.
  unfold QueryMetricsV2, dispatchV2, namesExpression, run.
  destruct (dtos.Queries reqDTO) as [ | first rest]; [reflexivity | ].
  cbn [length Nat.eqb processQueries].
  destruct (simplejson.Int64 _) as [id | ]; [ | reflexivity].
  destruct (String.eqb _ sentinel) eqn:Hname; cbn [Nat.eqb andb negb].
  - handler_unfold. rewrite processQueries_rest.
    destruct (forallb hasDatasourceID rest); [ | reflexivity].
    unfold expressionPath. handler_unfold.
    destruct (Cfg_IsExpressionsEnabled w); [ | reflexivity]. simpl.
    destruct (expr_WrapTransformData w _) as [resp | err]; [ | reflexivity].
    simpl. by destruct (aggregate resp).
  - handler_unfold.
    destruct (DatasourceCache_GetDatasource w id _ _) as [ds | err].
    + simpl. rewrite processQueries_rest.
      destruct (forallb hasDatasourceID rest); [ | reflexivity].
      handler_unfold.
      destruct (isExpressionBatch sentinel rest); simpl.
      * unfold expressionPath.
        destruct (Cfg_IsExpressionsEnabled w); [ | reflexivity]. simpl.
        destruct (expr_WrapTransformData w _) as [resp | err]; [ | reflexivity].
        simpl. by destruct (aggregate resp).
      * unfold directPath.
        destruct (tsdb_HandleRequest w _ _) as [resp | err]; [ | reflexivity].
        simpl. by destruct (aggregate resp).
    + unfold resolutionFailureV2. simpl.
      by destruct (errors_Is err ErrDataSourceAccessDenied),
                  (errors_Is err ErrDataSourceNotFound).
Qed.

Lemma QueryMetrics_dispatch (w : Collaborators)
    (c : models.ReqContext) (reqDto : dtos.MetricRequest) :
  run (QueryMetrics w c reqDto) = dispatchLegacy w c reqDto.
Proof.
  unfold QueryMetrics, dispatchLegacy.
  destruct (dtos.Queries reqDto) as [ | first rest]; [reflexivity | ].
  destruct (simplejson.Int64 _) as [id | ]; [ | reflexivity].
  unfold run. handler_unfold.
  destruct (DatasourceCache_GetDatasource w id _ _) as [ds | err]; simpl.
  - unfold directPath, requestOf. simpl.
    destruct (tsdb_HandleRequest w _ _) as [resp | err]; [ | reflexivity].
    simpl. by destruct (aggregate resp).
  - unfold resolutionFailure.
    by destruct (errors_Is err ErrDataSourceAccessDenied).
Qed.

(** ** Empty batches *)

(** C7: for every batch with zero sub-queries, both entry points return
    the validation error with status 400; the trace of collaborator calls
    is empty, so neither a backend collaborator nor the data-source
    resolver has been invoked. *)
Theorem empty_batch_rejected (sentinel : string) (w : Collaborators)
    (c : models.ReqContext) (reqDTO : dtos.MetricRequest) :
  dtos.Queries reqDTO = [] →
  let current := run (QueryMetricsV2 sentinel w c reqDTO) in
  let legacy := run (QueryMetrics w c reqDTO) in
  (current.2 = Error 400 "No queries found in query" None
   ∧ Status current.2 = 400
   ∧ resolutions current.1 = [] ∧ noBackendCall current.1)
  ∧ (legacy.2 = Error 400 "No queries found in query" None
     ∧ Status legacy.2 = 400
     ∧ resolutions legacy.1 = [] ∧ noBackendCall legacy.1).
Proof.
  intros Hempty. cbv zeta.
  rewrite QueryMetricsV2_dispatch, QueryMetrics_dispatch.
  unfold dispatchV2, dispatchLegacy, noBackendCall. rewrite Hempty.
  repeat split.
Qed.

Lemma empty_batch_rejected_witness :
  dtos.Queries Fixtures.emptyBatch = []
  ∧ Status (run (QueryMetricsV2 Fixtures.sentinel Fixtures.healthy Fixtures.c
                   Fixtures.emptyBatch)).2 = 400
  ∧ Status (run (QueryMetrics Fixtures.healthy Fixtures.c Fixtures.emptyBatch)).2 = 400.
Proof.
  split; [reflexivity | ].
  destruct (empty_batch_rejected Fixtures.sentinel Fixtures.healthy Fixtures.c
              Fixtures.emptyBatch eq_refl)
    as [(_ & Hcurrent & _) (_ & Hlegacy & _)].
  split; [exact Hcurrent | exact Hlegacy].
Defined.

(** ** The diagnostics endpoint *)

(** C10: the index access of [GenerateError], position 20 of an empty
    array, is out of bounds on every invocation: the indexing yields
    nothing, and the endpoint never produces a response value, in
    particular no 200 response. *)
Theorem GenerateError_out_of_bounds (c : models.ReqContext) :
  ([] : list string) !! 20%nat = None
  ∧ GenerateError c = None
  ∧ ∀ r : Response, GenerateError c ≠ Some r.
Proof. repeat split. discriminate. Qed.

(** ** Determinism *)



(** ** Aggregation of per-sub-query results *)

Lemma aggregatedStatus_ok (resp : tsdb.Response) :
  aggregatedStatus resp = 200 ↔
  Forall (λ entry, tsdb.Error entry.2 = None) (tsdb.Results resp).
Proof.
  unfold aggregatedStatus.
  induction (tsdb.Results resp) as [ | [key res] results IH]; simpl.
  - split; [constructor | reflexivity].
  - rewrite Forall_cons. unfold carriesError at 1. simpl.
    destruct (tsdb.Error res) as [err | ]; simpl.
    + split; [discriminate | intros [? _]; discriminate].
    + rewrite IH. tauto.
Qed.

Lemma aggregatedStatus_bad (resp : tsdb.Response) :
  ¬ Forall (λ entry, tsdb.Error entry.2 = None) (tsdb.Results resp) →
  aggregatedStatus resp = 400.
Proof.
  intros Hsome. pose proof (aggregatedStatus_ok resp) as Hok.
  unfold aggregatedStatus in *.
  destruct (existsb _ _); [reflexivity | ].
  exfalso. apply Hsome, Hok. reflexivity.
Qed.


Lemma aggregatedEnvelope_lookup (resp : tsdb.Response) (i : nat)
    (key : string) (res : tsdb.QueryResult) :
  tsdb.Results resp !! i = Some (key, res) →
  tsdb.Results (aggregatedEnvelope resp) !! i = Some (key, withErrorString res).
Proof.
  unfold aggregatedEnvelope. simpl.
  generalize dependent i.
  induction (tsdb.Results resp) as [ | entry results IH]; intros [ | i] Hi;
    try discriminate.
  - by injection Hi as ->.
  - simpl in *. by apply IH.
Qed.


(** A recorded call of the time-series executor identifies the direct
    path of [QueryMetricsV2], and the request that was dispatched. *)
Lemma QueryMetricsV2_direct (sentinel : string) (w : Collaborators)
    (c : models.ReqContext) (reqDTO : dtos.MetricRequest)
    (ds : option models.DataSource) (request : tsdb.TsdbQuery) :
  In (HandleRequestCall ds request) (run (QueryMetricsV2 sentinel w c reqDTO)).1 →
  ∃ first rest id found,
    dtos.Queries reqDTO = first :: rest
    ∧ simplejson.Int64 (simplejson.Get first "datasourceId") = Some id
    ∧ isExpressionBatch sentinel (first :: rest) = false
    ∧ forallb hasDatasourceID (first :: rest) = true
    ∧ DatasourceCache_GetDatasource w id (models.User c) (models.SkipCache c) = inl found
    ∧ ds = Some found
    ∧ request = requestOf c reqDTO
                  (map (λ query, newQueryV2 query (Some found)) (first :: rest))
    ∧ run (QueryMetricsV2 sentinel w c reqDTO) =
      (GetDatasourceCall id (models.User c) (models.SkipCache c)
         :: (directPath w jsonStreaming ds request).1,
       (directPath w jsonStreaming ds request).2).
Proof.
  rewrite QueryMetricsV2_dispatch. unfold dispatchV2, expressionPath.
  destruct (dtos.Queries reqDTO) as [ | first rest]; [absent_call | ].
  destruct (simplejson.Int64 _) as [id | ] eqn:Hid; [ | absent_call].
  destruct (namesExpression sentinel first) eqn:Hfirst.
  { destruct (forallb hasDatasourceID rest); [ | absent_call].
    destruct (Cfg_IsExpressionsEnabled w); absent_call. }
  destruct (DatasourceCache_GetDatasource w id _ _) as [found | err] eqn:Hfound;
    [ | absent_call].
  destruct (forallb hasDatasourceID rest) eqn:Hids; [ | absent_call].
  destruct (isExpressionBatch sentinel rest) eqn:Hrest.
  { destruct (Cfg_IsExpressionsEnabled w); absent_call. }
  simpl. intros [Hcall | [Hcall | []]]; [discriminate | ].
  injection Hcall as <- <-.
  exists first, rest, id, found. repeat split; try assumption.
  - unfold isExpressionBatch in *. simpl. by rewrite Hfirst, Hrest.
  - simpl. unfold hasDatasourceID at 1. by rewrite Hid, Hids.
Qed.

Lemma QueryMetrics_direct (w : Collaborators)
    (c : models.ReqContext) (reqDto : dtos.MetricRequest)
    (ds : option models.DataSource) (request : tsdb.TsdbQuery) :
  In (HandleRequestCall ds request) (run (QueryMetrics w c reqDto)).1 →
  ∃ first rest id found,
    dtos.Queries reqDto = first :: rest
    ∧ simplejson.Int64 (simplejson.Get first "datasourceId") = Some id
    ∧ DatasourceCache_GetDatasource w id (models.User c) (models.SkipCache c) = inl found
    ∧ ds = Some found
    ∧ request = requestOf c reqDto
                  (map (λ query, newQuery query (Some found)) (first :: rest))
    ∧ run (QueryMetrics w c reqDto) =
      (GetDatasourceCall id (models.User c) (models.SkipCache c)
         :: (directPath w JSON ds request).1,
       (directPath w JSON ds request).2).
Proof.
  rewrite QueryMetrics_dispatch. unfold dispatchLegacy.
  destruct (dtos.Queries reqDto) as [ | first rest]; [absent_call | ].
  destruct (simplejson.Int64 _) as [id | ] eqn:Hid; [ | absent_call].
  destruct (DatasourceCache_GetDatasource w id _ _) as [found | err] eqn:Hfound;
    [ | absent_call].
  simpl. intros [Hcall | [Hcall | []]]; [discriminate | ].
  injection Hcall as <- <-.
  exists first, rest, id, found. repeat split; assumption.
Qed.



(** ** Resolution of the data source *)



(** The expression path never calls the resolver itself. *)
Lemma expressionPath_resolutions (w : Collaborators) (request : tsdb.TsdbQuery) :
  resolutions (expressionPath w request).1 = [].
Proof. unfold expressionPath. by destruct (Cfg_IsExpressionsEnabled w). Qed.

(** C5, as it holds: [QueryMetricsV2] decides on the resolution at the
    first sub-query alone.  When the first sub-query names the expression
    engine, the resolver is never called while the batch is handled; when
    it names anything else and carries an identifier, the resolver is
    called exactly once, with that identifier, even if a later sub-query
    makes the batch an expression batch. *)
Theorem resolver_skipped_when_first_names_expression (sentinel : string)
    (w : Collaborators) (c : models.ReqContext) (reqDTO : dtos.MetricRequest)
    (first : simplejson.Json) (rest : list simplejson.Json) :
  dtos.Queries reqDTO = first :: rest →
  let trace := (run (QueryMetricsV2 sentinel w c reqDTO)).1 in
  (namesExpression sentinel first = true → resolutions trace = [])
  ∧ (∀ id : Z,
       namesExpression sentinel first = false →
       simplejson.Int64 (simplejson.Get first "datasourceId") = Some id →
       resolutions trace = [id]).
Proof.
  intros Hqueries trace. subst trace.
  rewrite QueryMetricsV2_dispatch. unfold dispatchV2. rewrite Hqueries.
  split.
  - intros ->.
    destruct (simplejson.Int64 _); [ | reflexivity].
    destruct (forallb hasDatasourceID rest); [ | reflexivity].
    apply expressionPath_resolutions.
  - intros id -> ->.
    destruct (DatasourceCache_GetDatasource w id _ _); [ | reflexivity].
    destruct (forallb hasDatasourceID rest); [ | reflexivity].
    simpl. f_equal.
    destruct (isExpressionBatch sentinel rest);
      [apply expressionPath_resolutions | reflexivity].
Qed.

Lemma resolver_skipped_when_first_names_expression_witness :
  resolutions
    (run (QueryMetricsV2 Fixtures.sentinel Fixtures.healthy Fixtures.c
            Fixtures.expressionFirstBatch)).1 = []
  ∧ resolutions
      (run (QueryMetricsV2 Fixtures.sentinel Fixtures.healthy Fixtures.c
              Fixtures.mixedBatch)).1 = [1].
Proof.
  split.
  - apply (proj1 (resolver_skipped_when_first_names_expression Fixtures.sentinel
                    Fixtures.healthy Fixtures.c Fixtures.expressionFirstBatch
                    Fixtures.exprQuery [Fixtures.queryA] eq_refl)).
    reflexivity.
  - apply (proj2 (resolver_skipped_when_first_names_expression Fixtures.sentinel
                    Fixtures.healthy Fixtures.c Fixtures.mixedBatch
                    Fixtures.queryA [Fixtures.exprQuery] eq_refl));
      reflexivity.
Defined.

(** C5, as stated, fails: the batch [queryA; exprQuery] is an expression
    batch, and handling it calls the resolver for data source 1. *)
Lemma expression_batch_calls_resolver :
  isExpressionBatch Fixtures.sentinel (dtos.Queries Fixtures.mixedBatch) = true
  ∧ run (QueryMetricsV2 Fixtures.sentinel Fixtures.disabled Fixtures.c
           Fixtures.mixedBatch)
    = ([GetDatasourceCall 1 (models.User Fixtures.c) false; IsExpressionsEnabledCall],
       Error 404 "Expressions feature toggle is not enabled" None)
  ∧ resolutions
      (run (QueryMetricsV2 Fixtures.sentinel Fixtures.disabled Fixtures.c
              Fixtures.mixedBatch)).1
    ≠ [].
Proof. repeat split. discriminate. Qed.

(** ** Rejections before any backend is invoked *)

Lemma expressionPath_disabled (w : Collaborators) (request : tsdb.TsdbQuery) :
  Cfg_IsExpressionsEnabled w = false →
  expressionPath w request =
  ([IsExpressionsEnabledCall],
   Error 404 "Expressions feature toggle is not enabled" None).
Proof. intros Hdisabled. unfold expressionPath. by rewrite Hdisabled. Qed.

(** C6, as it holds: an expression batch handled by [QueryMetricsV2] while
    the expressions feature is disabled never reaches a backend
    collaborator.  The response is the 404 "feature not enabled" error
    when the batch passes the checks made while the sub-queries are read:
    every sub-query carries a data-source identifier, and the resolution
    attempted for a first sub-query that does not name the expression
    engine succeeds.  A failed resolution is answered as such, and
    otherwise a missing identifier is answered with the 400 validation
    error. *)
Theorem expressions_disabled_rejected (sentinel : string) (w : Collaborators)
    (c : models.ReqContext) (reqDTO : dtos.MetricRequest) :
  isExpressionBatch sentinel (dtos.Queries reqDTO) = true →
  Cfg_IsExpressionsEnabled w = false →
  let out := run (QueryMetricsV2 sentinel w c reqDTO) in
  noBackendCall out.1
  ∧ (forallb hasDatasourceID (dtos.Queries reqDTO) = true →
     firstResolutionError sentinel w c (dtos.Queries reqDTO) = None →
     out.2 = Error 404 "Expressions feature toggle is not enabled" None
     ∧ Status out.2 = 404)
  ∧ out.2 =
    match firstResolutionError sentinel w c (dtos.Queries reqDTO) with
    | Some err => resolutionFailureV2 err
    | None =>
        if forallb hasDatasourceID (dtos.Queries reqDTO) then
          Error 404 "Expressions feature toggle is not enabled" None
        else missingDataSourceID
    end.
Proof.
  intros Hexpr Hdisabled out.
  assert (noBackendCall out.1
          ∧ out.2 =
            match firstResolutionError sentinel w c (dtos.Queries reqDTO) with
            | Some err => resolutionFailureV2 err
            | None =>
                if forallb hasDatasourceID (dtos.Queries reqDTO) then
                  Error 404 "Expressions feature toggle is not enabled" None
                else missingDataSourceID
            end) as [Hcalls Hresponse].
  { subst out. rewrite QueryMetricsV2_dispatch.
    unfold dispatchV2, firstResolutionError, noBackendCall, isExpressionBatch in *.
    destruct (dtos.Queries reqDTO) as [ | first rest]; [discriminate | ].
    simpl in Hexpr. simpl forallb.
    destruct (simplejson.Int64 (simplejson.Get first "datasourceId"))
      as [id | ] eqn:Hid.
    - replace (hasDatasourceID first) with true
        by (unfold hasDatasourceID; by rewrite Hid).
      destruct (namesExpression sentinel first); simpl in *.
      + destruct (forallb hasDatasourceID rest); [ | by split].
        rewrite expressionPath_disabled by assumption. by split.
      + destruct (DatasourceCache_GetDatasource w id _ _) as [ds | err];
          [ | by split].
        destruct (forallb hasDatasourceID rest); [ | by split].
        unfold isExpressionBatch. rewrite Hexpr.
        rewrite expressionPath_disabled by assumption. by split.
    - replace (hasDatasourceID first) with false
        by (unfold hasDatasourceID; by rewrite Hid).
      by destruct (namesExpression sentinel first). }
  split; [exact Hcalls | ]. split; [ | exact Hresponse].
  intros Hids Hresolved. rewrite Hresponse, Hresolved, Hids. by split.
Qed.

Lemma expressions_disabled_rejected_witness :
  Status
    (run (QueryMetricsV2 Fixtures.sentinel Fixtures.disabled Fixtures.c
            Fixtures.mixedBatch)).2 = 404.
Proof.
  apply (proj1 (proj2 (expressions_disabled_rejected Fixtures.sentinel
                         Fixtures.disabled Fixtures.c Fixtures.mixedBatch
                         eq_refl eq_refl)));
    reflexivity.
Defined.

(** C6, as stated, fails: with the expressions feature disabled, an
    expression batch whose sub-query has no identifier is answered 400,
    and an expression batch whose first sub-query is denied is answered
    403. *)
Lemma expressions_disabled_not_always_404 :
  Cfg_IsExpressionsEnabled Fixtures.disabled = false
  ∧ (isExpressionBatch Fixtures.sentinel
       (dtos.Queries Fixtures.unidentifiedExpressionBatch) = true
     ∧ run (QueryMetricsV2 Fixtures.sentinel Fixtures.disabled Fixtures.c
              Fixtures.unidentifiedExpressionBatch)
       = ([], Error 400 "Query missing data source ID" None))
  ∧ (isExpressionBatch Fixtures.sentinel
       (dtos.Queries Fixtures.deniedExpressionBatch) = true
     ∧ run (QueryMetricsV2 Fixtures.sentinel Fixtures.disabled Fixtures.c
              Fixtures.deniedExpressionBatch)
       = ([GetDatasourceCall 2 (models.User Fixtures.c) false],
          Error 403 "Access denied to data source"
            (Some (fmt_Errorf "org 1" ErrDataSourceAccessDenied)))).
Proof. repeat split. Qed.

(** C4, as it holds: a batch with a sub-query whose identifier is missing
    never reaches a backend collaborator under [QueryMetricsV2]; the
    response is the 400 validation error "Query missing data source ID"
    unless the resolution attempted for the first sub-query has failed,
    which is then answered as such (403, 400 or 500).  [QueryMetrics]
    returns its 400 validation error "Query missing datasourceId", with no
    collaborator invoked, when the identifier of the first sub-query is
    missing. *)
Theorem missing_identifier_rejected (sentinel : string) (w : Collaborators)
    (c : models.ReqContext) (reqDTO : dtos.MetricRequest) :
  forallb hasDatasourceID (dtos.Queries reqDTO) = false →
  let current := run (QueryMetricsV2 sentinel w c reqDTO) in
  let legacy := run (QueryMetrics w c reqDTO) in
  noBackendCall current.1
  ∧ current.2 =
    match firstResolutionError sentinel w c (dtos.Queries reqDTO) with
    | Some err => resolutionFailureV2 err
    | None => Error 400 "Query missing data source ID" None
    end
  ∧ (∀ first rest,
       dtos.Queries reqDTO = first :: rest →
       hasDatasourceID first = false →
       current = ([], Error 400 "Query missing data source ID" None)
       ∧ legacy = ([], Error 400 "Query missing datasourceId" None)).
Proof.
  intros Hids current legacy. subst current legacy.
  rewrite QueryMetricsV2_dispatch, QueryMetrics_dispatch.
  unfold dispatchV2, dispatchLegacy, firstResolutionError, noBackendCall.
  destruct (dtos.Queries reqDTO) as [ | first rest]; [discriminate | ].
  simpl in Hids. unfold hasDatasourceID at 1 in Hids.
  destruct (simplejson.Int64 (simplejson.Get first "datasourceId"))
    as [id | ] eqn:Hid.
  - simpl in Hids. rewrite Hids. split; [ | split].
    + destruct (namesExpression sentinel first); [reflexivity | ].
      by destruct (DatasourceCache_GetDatasource w id _ _).
    + destruct (namesExpression sentinel first); [reflexivity | ].
      by destruct (DatasourceCache_GetDatasource w id _ _).
    + intros first' rest' Hqueries Hfirst.
      injection Hqueries as <- <-. unfold hasDatasourceID in Hfirst.
      rewrite Hid in Hfirst. discriminate.
  - split; [reflexivity | ]. split.
    + by destruct (namesExpression sentinel first).
    + intros first' rest' _ _. by split.
Qed.

Lemma missing_identifier_rejected_witness :
  (run (QueryMetricsV2 Fixtures.sentinel Fixtures.healthy Fixtures.c
          Fixtures.identifiedThenUnidentifiedBatch)).2
  = Error 400 "Query missing data source ID" None
  ∧ run (QueryMetrics Fixtures.healthy Fixtures.c Fixtures.unidentifiedFirstBatch)
    = ([], Error 400 "Query missing datasourceId" None).
Proof.
  split.
  - apply (proj1 (proj2 (missing_identifier_rejected Fixtures.sentinel
                           Fixtures.healthy Fixtures.c
                           Fixtures.identifiedThenUnidentifiedBatch eq_refl))).
  - apply (proj2 (proj2 (missing_identifier_rejected Fixtures.sentinel
                           Fixtures.healthy Fixtures.c
                           Fixtures.unidentifiedFirstBatch eq_refl))
             Fixtures.noIdQuery [Fixtures.queryA] eq_refl eq_refl).
Defined.

(** C4, as stated, fails: [QueryMetricsV2] answers 403 to a batch whose
    first sub-query is denied and whose second has no identifier, and
    [QueryMetrics] dispatches a batch whose second sub-query has no
    identifier to the time-series executor and answers 200. *)
Lemma missing_identifier_not_always_400 :
  (forallb hasDatasourceID (dtos.Queries Fixtures.deniedThenUnidentifiedBatch) = false
   ∧ Status (run (QueryMetricsV2 Fixtures.sentinel Fixtures.healthy Fixtures.c
                    Fixtures.deniedThenUnidentifiedBatch)).2 = 403)
  ∧ (forallb hasDatasourceID (dtos.Queries Fixtures.identifiedThenUnidentifiedBatch)
     = false
     ∧ Status (run (QueryMetrics Fixtures.healthy Fixtures.c
                      Fixtures.identifiedThenUnidentifiedBatch)).2 = 200
     ∧ existsb isBackendCall
         (run (QueryMetrics Fixtures.healthy Fixtures.c
                 Fixtures.identifiedThenUnidentifiedBatch)).1 = true).
Proof. repeat split. Qed.

(** ** Failed resolutions *)

Lemma resolutionFailureV2_status (err : error) :
  Status (resolutionFailureV2 err) =
  if errors_Is err ErrDataSourceAccessDenied then 403
  else if errors_Is err ErrDataSourceNotFound then 400
  else 500.
Proof.
  unfold resolutionFailureV2.
  by destruct (errors_Is err ErrDataSourceAccessDenied),
              (errors_Is err ErrDataSourceNotFound).
Qed.

Lemma resolutionFailure_status (err : error) :
  Status (resolutionFailure err) =
  if errors_Is err ErrDataSourceAccessDenied then 403 else 500.
Proof.
  unfold resolutionFailure. by destruct (errors_Is err ErrDataSourceAccessDenied).
Qed.

(** A failed resolution ends the handling: the resolver call is the only
    call made.  [QueryMetricsV2] answers access-denied with 403, not-found
    with 400 and anything else with 500; [QueryMetrics] answers
    access-denied with 403 and anything else, not-found included, with
    500. *)
Lemma resolution_failure_answered (sentinel : string) (w : Collaborators)
    (c : models.ReqContext) (reqDTO : dtos.MetricRequest)
    (first : simplejson.Json) (rest : list simplejson.Json) (id : Z) (err : error) :
  dtos.Queries reqDTO = first :: rest →
  simplejson.Int64 (simplejson.Get first "datasourceId") = Some id →
  DatasourceCache_GetDatasource w id (models.User c) (models.SkipCache c) = inr err →
  let resolution := GetDatasourceCall id (models.User c) (models.SkipCache c) in
  (namesExpression sentinel first = false →
   run (QueryMetricsV2 sentinel w c reqDTO) = ([resolution], resolutionFailureV2 err))
  ∧ run (QueryMetrics w c reqDTO) = ([resolution], resolutionFailure err).
Proof.
  intros Hqueries Hid Herr resolution.
  rewrite QueryMetricsV2_dispatch, QueryMetrics_dispatch.
  unfold dispatchV2, dispatchLegacy. rewrite Hqueries, Hid, Herr.
  split; [ | reflexivity]. by intros ->.
Qed.

Lemma not_found_classification (err : error) :
  errors_Is err ErrDataSourceNotFound = true →
  Status (resolutionFailureV2 err) = 400 ∧ Status (resolutionFailure err) = 500.
Proof.
  intros Hnotfound.
  rewrite resolutionFailureV2_status, resolutionFailure_status.
  by rewrite (errors_Is_exclusive err Hnotfound), Hnotfound.
Qed.

(** C2, where the code departs from it: the batch [unknownQuery] asks for
    data source 3, which the cache reports as not found.  [QueryMetricsV2]
    answers 400, [QueryMetrics] answers 500; neither calls a backend. *)
Theorem legacy_not_found_answered_500 :
  DatasourceCache_GetDatasource Fixtures.healthy 3 (models.User Fixtures.c) false
  = inr ErrDataSourceNotFound
  ∧ errors_Is ErrDataSourceNotFound ErrDataSourceNotFound = true
  ∧ run (QueryMetricsV2 Fixtures.sentinel Fixtures.healthy Fixtures.c
           Fixtures.unknownBatch)
    = ([GetDatasourceCall 3 (models.User Fixtures.c) false],
       Error 400 "Invalid data source ID" (Some ErrDataSourceNotFound))
  ∧ run (QueryMetrics Fixtures.healthy Fixtures.c Fixtures.unknownBatch)
    = ([GetDatasourceCall 3 (models.User Fixtures.c) false],
       Error 500 "Unable to load datasource meta data" (Some ErrDataSourceNotFound)).
Proof. repeat split. Qed.

(** ** The legacy entry point *)

Lemma aggregatedStatus_values (resp : tsdb.Response) :
  aggregatedStatus resp = 200 ∨ aggregatedStatus resp = 400.
Proof. unfold aggregatedStatus. destruct (existsb _ _); auto. Qed.

Lemma renamed_datasourceId (name : simplejson.Value) (query : simplejson.Json) :
  simplejson.Int64 (simplejson.Get (<["datasource" := name]> query) "datasourceId")
  = simplejson.Int64 (simplejson.Get query "datasourceId").
Proof. unfold simplejson.Get. by rewrite lookup_insert_ne. Qed.

(** C8: [QueryMetrics] never consults the expressions feature toggle and
    never calls the expression evaluator; it never answers 404; which
    collaborators it calls does not depend on the declared data-source
    names (overwriting them all changes neither the resolutions nor
    whether a backend is called); and every batch whose first sub-query
    carries an identifier that resolves, whatever names its sub-queries
    declare, is dispatched down the direct path, against the data source
    resolved from that identifier. *)
Theorem legacy_always_direct (w : Collaborators) (c : models.ReqContext)
    (reqDto : dtos.MetricRequest) :
  let out := run (QueryMetrics w c reqDto) in
  existsb isExpressionCall out.1 = false
  ∧ Status out.2 ≠ 404
  ∧ (∀ name : simplejson.Value,
       let out' := run (QueryMetrics w c (renamed name reqDto)) in
       resolutions out'.1 = resolutions out.1
       ∧ existsb isBackendCall out'.1 = existsb isBackendCall out.1)
  ∧ (∀ first rest id found,
       dtos.Queries reqDto = first :: rest →
       simplejson.Int64 (simplejson.Get first "datasourceId") = Some id →
       DatasourceCache_GetDatasource w id (models.User c) (models.SkipCache c)
       = inl found →
       out.1 =
       [GetDatasourceCall id (models.User c) (models.SkipCache c);
        HandleRequestCall (Some found)
          (requestOf c reqDto
             (map (λ query, newQuery query (Some found)) (first :: rest)))]).
Proof.
  intros out. subst out. rewrite QueryMetrics_dispatch.
  split; [ | split; [ | split]].
  - unfold dispatchLegacy.
    destruct (dtos.Queries reqDto) as [ | first rest]; [reflexivity | ].
    destruct (simplejson.Int64 _) as [id | ]; [ | reflexivity].
    by destruct (DatasourceCache_GetDatasource w id _ _).
  - unfold dispatchLegacy.
    destruct (dtos.Queries reqDto) as [ | first rest]; [discriminate | ].
    destruct (simplejson.Int64 _) as [id | ]; [ | discriminate].
    destruct (DatasourceCache_GetDatasource w id _ _) as [ds | err].
    + unfold directPath. simpl.
      destruct (tsdb_HandleRequest w _ _) as [resp | err]; [ | discriminate].
      rewrite aggregate_spec. simpl.
      destruct (aggregatedStatus_values resp) as [-> | ->]; discriminate.
    + simpl. rewrite resolutionFailure_status.
      destruct (errors_Is err ErrDataSourceAccessDenied); discriminate.
  - intros name out'. subst out'. rewrite QueryMetrics_dispatch.
    unfold dispatchLegacy.
    change (dtos.Queries (renamed name reqDto))
      with (map (λ query : simplejson.Json, <["datasource" := name]> query)
              (dtos.Queries reqDto)).
    destruct (dtos.Queries reqDto) as [ | first rest]; [by split | ].
    cbn [map]. rewrite renamed_datasourceId.
    destruct (simplejson.Int64 _) as [id | ]; [ | by split].
    by destruct (DatasourceCache_GetDatasource w id _ _).
  - intros first rest id found Hqueries Hid Hfound.
    unfold dispatchLegacy. by rewrite Hqueries, Hid, Hfound.
Qed.

Lemma legacy_always_direct_witness :
  isExpressionBatch Fixtures.sentinel (dtos.Queries Fixtures.mixedBatch) = true
  ∧ (run (QueryMetrics Fixtures.disabled Fixtures.c Fixtures.mixedBatch)).1 =
    [GetDatasourceCall 1 (models.User Fixtures.c) false;
     HandleRequestCall (Some Fixtures.prometheus)
       (requestOf Fixtures.c Fixtures.mixedBatch
          (map (λ query, newQuery query (Some Fixtures.prometheus))
             [Fixtures.queryA; Fixtures.exprQuery]))].
Proof.
  split; [reflexivity | ].
  apply (proj2 (proj2 (proj2 (legacy_always_direct Fixtures.disabled Fixtures.c
                                Fixtures.mixedBatch)))
           Fixtures.queryA [Fixtures.exprQuery] 1 Fixtures.prometheus);
    reflexivity.
Defined.

(** ** Backend failures and the expression path *)

(** A recorded call of the expression evaluator identifies the expression
    path of [QueryMetricsV2], the request that was dispatched and the data
    source attached to its descriptors: none when the first sub-query
    names the expression engine, the resolved one otherwise. *)
Lemma QueryMetricsV2_expression (sentinel : string) (w : Collaborators)
    (c : models.ReqContext) (reqDTO : dtos.MetricRequest)
    (request : tsdb.TsdbQuery) :
  In (WrapTransformDataCall request) (run (QueryMetricsV2 sentinel w c reqDTO)).1 →
  ∃ first rest id ds,
    dtos.Queries reqDTO = first :: rest
    ∧ simplejson.Int64 (simplejson.Get first "datasourceId") = Some id
    ∧ isExpressionBatch sentinel (first :: rest) = true
    ∧ forallb hasDatasourceID (first :: rest) = true
    ∧ Cfg_IsExpressionsEnabled w = true
    ∧ (if namesExpression sentinel first then ds = None
       else ∃ found,
           DatasourceCache_GetDatasource w id (models.User c) (models.SkipCache c)
           = inl found ∧ ds = Some found)
    ∧ request = requestOf c reqDTO (map (λ query, newQueryV2 query ds) (first :: rest))
    ∧ (run (QueryMetricsV2 sentinel w c reqDTO)).2 =
      match expr_WrapTransformData w request with
      | inr err => Error 500 "Transform request error" (Some err)
      | inl resp => jsonStreaming (aggregate resp).1 (EnvelopeBody (aggregate resp).2)
      end
    ∧ ∀ ds' request', ¬ In (HandleRequestCall ds' request')
                          (run (QueryMetricsV2 sentinel w c reqDTO)).1.
Proof.
  rewrite QueryMetricsV2_dispatch. unfold dispatchV2, expressionPath, directPath.
  destruct (dtos.Queries reqDTO) as [ | first rest]; [absent_call | ].
  destruct (simplejson.Int64 _) as [id | ] eqn:Hid; [ | absent_call].
  assert (hasDatasourceID first = true) as Hfirstid
    by (unfold hasDatasourceID; by rewrite Hid).
  destruct (namesExpression sentinel first) eqn:Hfirst.
  - destruct (forallb hasDatasourceID rest) eqn:Hids; [ | absent_call].
    destruct (Cfg_IsExpressionsEnabled w) eqn:Henabled; [ | absent_call].
    simpl. intros [Hcall | [Hcall | []]]; [discriminate | ].
    injection Hcall as <-.
    exists first, rest, id, None.
    unfold isExpressionBatch. simpl existsb. simpl forallb.
    rewrite Hfirst, Hfirstid, Hids.
    repeat split; try done.
    intros ds' request' [Hother | [Hother | []]]; discriminate.
  - destruct (DatasourceCache_GetDatasource w id _ _) as [found | err] eqn:Hfound;
      [ | absent_call].
    destruct (forallb hasDatasourceID rest) eqn:Hids; [ | absent_call].
    destruct (isExpressionBatch sentinel rest) eqn:Hrest; [ | absent_call].
    destruct (Cfg_IsExpressionsEnabled w) eqn:Henabled; [ | absent_call].
    simpl. intros [Hcall | [Hcall | [Hcall | []]]]; try discriminate.
    injection Hcall as <-.
    exists first, rest, id, (Some found).
    unfold isExpressionBatch in *. simpl existsb. simpl forallb.
    rewrite Hfirst, Hfirstid, Hids, Hrest.
    repeat split; try done.
    + by exists found.
    + intros ds' request' [Hother | [Hother | [Hother | []]]]; discriminate.
Qed.

(** X1: a failure of the backend call itself fails the whole batch with
    status 500 and the backend's error attached, without any aggregation:
    "Metric request error" when the time-series executor fails (either
    entry point), "Transform request error" when the expression evaluator
    fails. *)
Theorem backend_failure_answered_500 (sentinel : string) (w : Collaborators)
    (c : models.ReqContext) (reqDTO : dtos.MetricRequest) (err : error) :
  (∀ ds request,
     In (HandleRequestCall ds request) (run (QueryMetricsV2 sentinel w c reqDTO)).1 →
     tsdb_HandleRequest w ds request = inr err →
     (run (QueryMetricsV2 sentinel w c reqDTO)).2
     = Error 500 "Metric request error" (Some err))
  ∧ (∀ request,
       In (WrapTransformDataCall request) (run (QueryMetricsV2 sentinel w c reqDTO)).1 →
       expr_WrapTransformData w request = inr err →
       (run (QueryMetricsV2 sentinel w c reqDTO)).2
       = Error 500 "Transform request error" (Some err))
  ∧ (∀ ds request,
       In (HandleRequestCall ds request) (run (QueryMetrics w c reqDTO)).1 →
       tsdb_HandleRequest w ds request = inr err →
       (run (QueryMetrics w c reqDTO)).2
       = Error 500 "Metric request error" (Some err)).
Proof.
  split; [ | split].
  - intros ds request Hcall Hfailed.
    apply QueryMetricsV2_direct in Hcall
      as (first & rest & id & found & _ & _ & _ & _ & _ & _ & _ & ->).
    unfold directPath. simpl. by rewrite Hfailed.
  - intros request Hcall Hfailed.
    apply QueryMetricsV2_expression in Hcall
      as (first & rest & id & ds & _ & _ & _ & _ & _ & _ & _ & -> & _).
    by rewrite Hfailed.
  - intros ds request Hcall Hfailed.
    apply QueryMetrics_direct in Hcall
      as (first & rest & id & found & _ & _ & _ & _ & _ & ->).
    unfold directPath. simpl. by rewrite Hfailed.
Qed.

Lemma backend_failure_answered_500_witness :
  (run (QueryMetricsV2 Fixtures.sentinel (Samples.withBrokenExecutor Fixtures.healthy)
          Fixtures.c Fixtures.directBatch)).2
  = Error 500 "Metric request error" (Some (errors_New "executor down"))
  ∧ (run (QueryMetricsV2 Fixtures.sentinel (Fixtures.withBrokenEvaluator Fixtures.healthy)
            Fixtures.c Fixtures.mixedBatch)).2
    = Error 500 "Transform request error" (Some (errors_New "evaluator down"))
  ∧ (run (QueryMetrics (Samples.withBrokenExecutor Fixtures.healthy)
            Fixtures.c Fixtures.directBatch)).2
    = Error 500 "Metric request error" (Some (errors_New "executor down")).
Proof.
  split; [ | split].
  - apply (proj1 (backend_failure_answered_500 Fixtures.sentinel
                    (Samples.withBrokenExecutor Fixtures.healthy) Fixtures.c
                    Fixtures.directBatch (errors_New "executor down"))
             (Some Fixtures.prometheus)
             (requestOf Fixtures.c Fixtures.directBatch
                (map (λ query, newQueryV2 query (Some Fixtures.prometheus))
                   [Fixtures.queryA; Fixtures.queryB])));
      [vm_compute; right; left; reflexivity | reflexivity].
  - apply (proj1 (proj2 (backend_failure_answered_500 Fixtures.sentinel
                           (Fixtures.withBrokenEvaluator Fixtures.healthy) Fixtures.c
                           Fixtures.mixedBatch (errors_New "evaluator down")))
             (requestOf Fixtures.c Fixtures.mixedBatch
                (map (λ query, newQueryV2 query (Some Fixtures.prometheus))
                   [Fixtures.queryA; Fixtures.exprQuery])));
      [vm_compute; right; right; left; reflexivity | reflexivity].
  - apply (proj2 (proj2 (backend_failure_answered_500 Fixtures.sentinel
                           (Samples.withBrokenExecutor Fixtures.healthy) Fixtures.c
                           Fixtures.directBatch (errors_New "executor down")))
             (Some Fixtures.prometheus)
             (requestOf Fixtures.c Fixtures.directBatch
                (map (λ query, newQuery query (Some Fixtures.prometheus))
                   [Fixtures.queryA; Fixtures.queryB])));
      [vm_compute; right; left; reflexivity | reflexivity].
Defined.

(** X2: when the expression evaluator has been called and returns an
    envelope, the expressions feature is enabled, the batch is an
    expression batch, the time-series executor has not been called, the
    dispatched request has one descriptor per sub-query, and the response
    is the streamed aggregation of the envelope: status 200 if and only if
    no result carries an error, 400 otherwise, with the error strings and
    the message written as on the direct path. *)
Theorem expression_batch_aggregation (sentinel : string) (w : Collaborators)
    (c : models.ReqContext) (reqDTO : dtos.MetricRequest)
    (request : tsdb.TsdbQuery) (resp : tsdb.Response) :
  In (WrapTransformDataCall request) (run (QueryMetricsV2 sentinel w c reqDTO)).1 →
  expr_WrapTransformData w request = inl resp →
  let out := run (QueryMetricsV2 sentinel w c reqDTO) in
  let noError := λ entry : string * tsdb.QueryResult, tsdb.Error entry.2 = None in
  Cfg_IsExpressionsEnabled w = true
  ∧ isExpressionBatch sentinel (dtos.Queries reqDTO) = true
  ∧ (∀ ds request', ¬ In (HandleRequestCall ds request') out.1)
  ∧ length (tsdb.Queries request) = length (dtos.Queries reqDTO)
  ∧ out.2 = jsonStreaming (aggregatedStatus resp) (EnvelopeBody (aggregatedEnvelope resp))
  ∧ (Status out.2 = 200 ↔ Forall noError (tsdb.Results resp))
  ∧ (¬ Forall noError (tsdb.Results resp) → Status out.2 = 400).
Proof.
  intros Hcall Hok out noError. subst out.
  apply QueryMetricsV2_expression in Hcall
    as (first & rest & id & ds & Hqueries & _ & Hexpr & _ & Henabled & _ & -> & -> & Hnever).
  rewrite Hok, aggregate_spec, Hqueries. simpl.
  repeat split; try done.
  - by rewrite length_map.
  - apply aggregatedStatus_ok.
  - apply aggregatedStatus_ok.
  - apply aggregatedStatus_bad.
Qed.

Lemma expression_batch_aggregation_witness :
  Status (run (QueryMetricsV2 Fixtures.sentinel Fixtures.failing Fixtures.c
                 Fixtures.expressionFirstBatch)).2 = 400.
Proof.
  pose (request :=
          requestOf Fixtures.c Fixtures.expressionFirstBatch
            (map (λ query, newQueryV2 query None)
               [Fixtures.exprQuery; Fixtures.queryA])).
  assert (In (WrapTransformDataCall request)
            (run (QueryMetricsV2 Fixtures.sentinel Fixtures.failing Fixtures.c
                    Fixtures.expressionFirstBatch)).1)
    as Hcall by (vm_compute; right; left; reflexivity).
  destruct (expression_batch_aggregation Fixtures.sentinel Fixtures.failing Fixtures.c
              Fixtures.expressionFirstBatch request Fixtures.partialEnvelope
              Hcall eq_refl)
    as (_ & _ & _ & _ & _ & _ & Hbad).
  apply Hbad. intros Hnone. inversion Hnone as [ | entry rest Hentry _].
  discriminate Hentry.
Defined.

(** ** Routing *)

(** X3: [QueryMetricsV2] consults the expressions toggle only for
    expression batches and calls the time-series executor only for direct
    batches; the expression evaluator is called only after the toggle has
    been consulted and found enabled.  Under either entry point a batch
    leads to at most one backend call, and a backend call is the last
    call made. *)
Theorem routing_follows_classification (sentinel : string) (w : Collaborators)
    (c : models.ReqContext) (reqDTO : dtos.MetricRequest) :
  let current := (run (QueryMetricsV2 sentinel w c reqDTO)).1 in
  let legacy := (run (QueryMetrics w c reqDTO)).1 in
  (In IsExpressionsEnabledCall current →
   isExpressionBatch sentinel (dtos.Queries reqDTO) = true)
  ∧ (∀ ds request, In (HandleRequestCall ds request) current →
       isExpressionBatch sentinel (dtos.Queries reqDTO) = false)
  ∧ (∀ request, In (WrapTransformDataCall request) current →
       Cfg_IsExpressionsEnabled w = true ∧ In IsExpressionsEnabledCall current)
  ∧ (∀ trace, trace = current ∨ trace = legacy →
       (length (List.filter isBackendCall trace) ≤ 1)%nat
       ∧ (existsb isBackendCall trace = true →
          ∃ e, last trace = Some e ∧ isBackendCall e = true)).
Proof.
  intros current legacy. subst current legacy.
  rewrite QueryMetricsV2_dispatch, QueryMetrics_dispatch.
  split; [ | split; [ | split]].
  - unfold isExpressionBatch. dispatch_cases; intros Hcall; try done;
      repeat (destruct Hcall as [Hcall | Hcall]; try discriminate Hcall);
      try done.
    all: unfold isExpressionBatch in *; use_cases; by rewrite ?orb_true_r.
  - intros ds request. unfold isExpressionBatch. dispatch_cases; intros Hcall;
      repeat (destruct Hcall as [Hcall | Hcall]; try discriminate Hcall);
      try done.
    all: unfold isExpressionBatch in *; by use_cases.
  - intros request. dispatch_cases; intros Hcall;
      repeat (destruct Hcall as [Hcall | Hcall]; try discriminate Hcall);
      try done; split; auto.
  - intros trace [-> | ->]; dispatch_cases; (split; [lia | ]); try done;
      intros _; eexists; split; reflexivity.
Qed.

Lemma routing_follows_classification_witness :
  isExpressionBatch Fixtures.sentinel (dtos.Queries Fixtures.mixedBatch) = true
  ∧ Cfg_IsExpressionsEnabled Fixtures.healthy = true.
Proof.
  destruct (routing_follows_classification Fixtures.sentinel Fixtures.healthy
              Fixtures.c Fixtures.mixedBatch)
    as (Hconsulted & _ & Hevaluated & _).
  split.
  - apply Hconsulted. vm_compute. right; left; reflexivity.
  - apply (Hevaluated
             (requestOf Fixtures.c Fixtures.mixedBatch
                (map (λ query, newQueryV2 query (Some Fixtures.prometheus))
                   [Fixtures.queryA; Fixtures.exprQuery]))).
    vm_compute. right; right; left; reflexivity.
Defined.

(** X4: whatever the batch, either entry point calls the data-source
    resolver at most once; when it does, the call is the first call
    made, it asks for the identifier of the first sub-query, and it
    passes on the signed-in user and the skip-cache flag of the request
    context. *)
Theorem resolver_called_at_most_once (sentinel : string) (w : Collaborators)
    (c : models.ReqContext) (reqDTO : dtos.MetricRequest) (trace : list Event) :
  trace = (run (QueryMetricsV2 sentinel w c reqDTO)).1
  ∨ trace = (run (QueryMetrics w c reqDTO)).1 →
  (length (resolutions trace) ≤ 1)%nat
  ∧ ∀ id user skipCache,
      In (GetDatasourceCall id user skipCache) trace →
      user = models.User c
      ∧ skipCache = models.SkipCache c
      ∧ head trace = Some (GetDatasourceCall id user skipCache)
      ∧ ∃ first rest,
          dtos.Queries reqDTO = first :: rest
          ∧ simplejson.Int64 (simplejson.Get first "datasourceId") = Some id.
Proof.
  rewrite QueryMetricsV2_dispatch, QueryMetrics_dispatch.
  intros [-> | ->]; dispatch_cases; (split; [lia | ]);
    intros id user skipCache Hcall;
    repeat (destruct Hcall as [Hcall | Hcall]; try discriminate Hcall);
    try done; simplify_eq; repeat split; eauto.
Qed.

Lemma resolver_called_at_most_once_witness :
  head (run (QueryMetricsV2 Fixtures.sentinel Fixtures.healthy Fixtures.c
               Fixtures.mixedBatch)).1
  = Some (GetDatasourceCall 1 (models.User Fixtures.c) false).
Proof.
  apply (proj2 (resolver_called_at_most_once Fixtures.sentinel Fixtures.healthy
                  Fixtures.c Fixtures.mixedBatch _ (or_introl eq_refl))
           1 (models.User Fixtures.c) false).
  vm_compute. left; reflexivity.
Defined.

(** X5: [QueryMetricsV2] answers with one of the statuses 200, 400, 403,
    404 and 500.  It answers 404 only to an expression batch while the
    expressions feature is disabled, 403 only when the resolution it
    attempted failed with an access-denied error, and 200 only after a
    backend has been called. *)
Theorem current_status_codes (sentinel : string) (w : Collaborators)
    (c : models.ReqContext) (reqDTO : dtos.MetricRequest) :
  let out := run (QueryMetricsV2 sentinel w c reqDTO) in
  (Status out.2 = 200 ∨ Status out.2 = 400 ∨ Status out.2 = 403
   ∨ Status out.2 = 404 ∨ Status out.2 = 500)
  ∧ (Status out.2 = 404 →
     isExpressionBatch sentinel (dtos.Queries reqDTO) = true
     ∧ Cfg_IsExpressionsEnabled w = false)
  ∧ (Status out.2 = 403 →
     ∃ err, firstResolutionError sentinel w c (dtos.Queries reqDTO) = Some err
            ∧ errors_Is err ErrDataSourceAccessDenied = true)
  ∧ (Status out.2 = 200 → existsb isBackendCall out.1 = true).
Proof.
  intros out. subst out. rewrite QueryMetricsV2_dispatch.
  unfold isExpressionBatch.
  dispatch_cases; unfold resolutionFailureV2; repeat case_match;
    rewrite ?aggregate_spec; simpl;
    repeat match goal with
           | |- context [aggregatedStatus ?resp] =>
               destruct (aggregatedStatus_values resp) as [-> | ->]
           end;
    (split; [lia | ]); (split; [ | split]);
    intros Hstatus; try discriminate Hstatus;
    unfold isExpressionBatch in *; use_cases; rewrite ?orb_true_r; eauto.
Qed.

Lemma current_status_codes_witness :
  isExpressionBatch Fixtures.sentinel (dtos.Queries Fixtures.mixedBatch) = true
  ∧ Cfg_IsExpressionsEnabled Fixtures.disabled = false.
Proof.
  apply (proj1 (proj2 (current_status_codes Fixtures.sentinel Fixtures.disabled
                         Fixtures.c Fixtures.mixedBatch))).
  reflexivity.
Defined.

(** ** The dispatched request *)

(** Every request a metrics handler hands to a backend is built from the
    batch by one descriptor constructor and one data source. *)
Lemma dispatched_request (sentinel : string) (w : Collaborators)
    (c : models.ReqContext) (reqDTO : dtos.MetricRequest) (request : tsdb.TsdbQuery) :
  (∃ ds, In (HandleRequestCall ds request) (run (QueryMetricsV2 sentinel w c reqDTO)).1
         ∨ In (HandleRequestCall ds request) (run (QueryMetrics w c reqDTO)).1)
  ∨ In (WrapTransformDataCall request) (run (QueryMetricsV2 sentinel w c reqDTO)).1 →
  ∃ build attached,
    (build = newQueryV2 ∨ build = newQuery)
    ∧ request = requestOf c reqDTO
                  (map (λ query, build query attached) (dtos.Queries reqDTO)).
Proof.
  intros [[ds [Hcall | Hcall]] | Hcall].
  - apply QueryMetricsV2_direct in Hcall
      as (first & rest & id & found & -> & _ & _ & _ & _ & _ & -> & _).
    exists newQueryV2, (Some found). by split; [left | ].
  - apply QueryMetrics_direct in Hcall
      as (first & rest & id & found & -> & _ & _ & _ & -> & _).
    exists newQuery, (Some found). by split; [right | ].
  - apply QueryMetricsV2_expression in Hcall
      as (first & rest & id & ds & -> & _ & _ & _ & _ & _ & -> & _).
    exists newQueryV2, ds. by split; [left | ].
Qed.

(** X6: a request handed to a backend, by either entry point and on
    either path, mirrors the batch: it carries the time range and the
    debug flag of the batch and the signed-in user of the request
    context, it has one descriptor per sub-query, in the order of the
    batch, the descriptor at each position carries the sub-query at that
    position as its model, and all descriptors have the same data source
    attached. *)
Theorem dispatched_request_mirrors_batch (sentinel : string) (w : Collaborators)
    (c : models.ReqContext) (reqDTO : dtos.MetricRequest) (request : tsdb.TsdbQuery) :
  (∃ ds, In (HandleRequestCall ds request) (run (QueryMetricsV2 sentinel w c reqDTO)).1
         ∨ In (HandleRequestCall ds request) (run (QueryMetrics w c reqDTO)).1)
  ∨ In (WrapTransformDataCall request) (run (QueryMetricsV2 sentinel w c reqDTO)).1 →
  tsdb.TimeRange_ request = tsdb.NewTimeRange (dtos.From reqDTO) (dtos.To reqDTO)
  ∧ tsdb.Debug request = dtos.Debug reqDTO
  ∧ tsdb.User request = models.User c
  ∧ length (tsdb.Queries request) = length (dtos.Queries reqDTO)
  ∧ (∃ attached,
       Forall (λ descriptor, tsdb.DataSource descriptor = attached)
         (tsdb.Queries request))
  ∧ ∀ (i : nat) (query : simplejson.Json),
      dtos.Queries reqDTO !! i = Some query →
      ∃ descriptor,
        tsdb.Queries request !! i = Some descriptor
        ∧ tsdb.Model descriptor = query.
Proof.
  intros Hdispatched.
  apply dispatched_request in Hdispatched as (build & attached & Hbuild & ->).
  simpl. repeat split; try done.
  - by rewrite length_map.
  - exists attached. apply Forall_forall. intros descriptor Hin.
    apply list_elem_of_In, in_map_iff in Hin as (query & <- & _).
    by destruct Hbuild as [-> | ->].
  - intros i query Hi.
    exists (build query attached). split.
    + change (map (λ query, build query attached) (dtos.Queries reqDTO))
        with ((λ query, build query attached) <$> dtos.Queries reqDTO).
      by rewrite list_lookup_fmap, Hi.
    + by destruct Hbuild as [-> | ->].
Qed.

Lemma dispatched_request_mirrors_batch_witness :
  ∃ descriptor,
    tsdb.Queries
      (requestOf Fixtures.c Fixtures.mixedBatch
         (map (λ query, newQueryV2 query (Some Fixtures.prometheus))
            [Fixtures.queryA; Fixtures.exprQuery])) !! 1%nat = Some descriptor
    ∧ tsdb.Model descriptor = Fixtures.exprQuery.
Proof.
  apply (proj2 (proj2 (proj2 (proj2 (proj2
           (dispatched_request_mirrors_batch Fixtures.sentinel Fixtures.healthy
              Fixtures.c Fixtures.mixedBatch _
              (or_intror
                 (or_intror (or_intror (or_introl eq_refl)))))))))
           1%nat Fixtures.exprQuery eq_refl).
Defined.



(** X8: for a batch that [QueryMetricsV2] sends down the direct path and
    whose sub-queries declare no query type, [QueryMetrics] makes exactly
    the same calls (the same resolution, the same request to the
    time-series executor), and the two responses have the same status and
    the same body; they differ only in being streamed or buffered. *)
Theorem entry_points_agree_on_direct_batches (sentinel : string) (w : Collaborators)
    (c : models.ReqContext) (reqDTO : dtos.MetricRequest)
    (ds : option models.DataSource) (request : tsdb.TsdbQuery) :
  In (HandleRequestCall ds request) (run (QueryMetricsV2 sentinel w c reqDTO)).1 →
  Forall (λ query,
            simplejson.MustString (simplejson.Get query "queryType") "" = "")
    (dtos.Queries reqDTO) →
  let current := run (QueryMetricsV2 sentinel w c reqDTO) in
  let legacy := run (QueryMetrics w c reqDTO) in
  legacy.1 = current.1
  ∧ Status legacy.2 = Status current.2
  ∧ ResponseBody legacy.2 = ResponseBody current.2.
Proof.
  intros Hcall Huntyped current legacy. subst current legacy.
  apply QueryMetricsV2_direct in Hcall
    as (first & rest & id & found & Hqueries & Hid & _ & _ & Hfound & -> & -> & ->).
  rewrite QueryMetrics_dispatch. unfold dispatchLegacy.
  rewrite Hqueries, Hid, Hfound.
  assert (map (λ query, newQuery query (Some found)) (first :: rest)
          = map (λ query, newQueryV2 query (Some found)) (first :: rest))
    as ->.
  { rewrite <- Hqueries. clear Hqueries.
    induction Huntyped as [ | query queries Hquery _ IH]; [reflexivity | ].
    simpl. rewrite IH. f_equal. unfold newQuery, newQueryV2. by rewrite Hquery. }
  rewrite <- Hqueries. unfold directPath. simpl.
  by destruct (tsdb_HandleRequest w _ _).
Qed.

Lemma entry_points_agree_on_direct_batches_witness :
  Status (run (QueryMetrics Fixtures.failing Fixtures.c Fixtures.directBatch)).2
  = Status (run (QueryMetricsV2 Fixtures.sentinel Fixtures.failing Fixtures.c
                   Fixtures.directBatch)).2.
Proof.
  assert (Forall (λ query,
                    simplejson.MustString (simplejson.Get query "queryType") "" = "")
            (dtos.Queries Fixtures.directBatch)) as Huntyped
    by (repeat constructor).
  apply (proj1 (proj2 (entry_points_agree_on_direct_batches Fixtures.sentinel
                         Fixtures.failing Fixtures.c Fixtures.directBatch
                         (Some Fixtures.prometheus)
                         (requestOf Fixtures.c Fixtures.directBatch
                            (map (λ query, newQueryV2 query (Some Fixtures.prometheus))
                               [Fixtures.queryA; Fixtures.queryB]))
                         (or_intror (or_introl eq_refl)) Huntyped))).
Defined.

(** X9: a query type declared by a sub-query reaches the backend only
    through [QueryMetricsV2], which copies it into the descriptor (and
    uses the empty string when the sub-query declares none);
    [QueryMetrics] dispatches every descriptor with an empty query
    type. *)
Theorem query_type_forwarded_by_current_only (sentinel : string) (w : Collaborators)
    (c : models.ReqContext) (reqDTO : dtos.MetricRequest)
    (ds : option models.DataSource) (request : tsdb.TsdbQuery)
    (i : nat) (query : simplejson.Json) (descriptor : tsdb.Query) :
  dtos.Queries reqDTO !! i = Some query →
  tsdb.Queries request !! i = Some descriptor →
  (In (HandleRequestCall ds request) (run (QueryMetricsV2 sentinel w c reqDTO)).1
   ∨ In (WrapTransformDataCall request) (run (QueryMetricsV2 sentinel w c reqDTO)).1 →
   (∀ queryType, query !! "queryType" = Some (simplejson.Text queryType) →
      tsdb.QueryType descriptor = queryType)
   ∧ (query !! "queryType" = None → tsdb.QueryType descriptor = ""))
  ∧ (In (HandleRequestCall ds request) (run (QueryMetrics w c reqDTO)).1 →
     tsdb.QueryType descriptor = "").
Proof.
  intros Hi Hdescriptor.
  assert (∀ (build : simplejson.Json → option models.DataSource → tsdb.Query) attached,
            request = requestOf c reqDTO
                        (map (λ query, build query attached) (dtos.Queries reqDTO)) →
            descriptor = build query attached) as Hbuilt.
  { intros build attached ->. simpl in Hdescriptor.
    change (map (λ query, build query attached) (dtos.Queries reqDTO))
      with ((λ query, build query attached) <$> dtos.Queries reqDTO) in Hdescriptor.
    rewrite list_lookup_fmap, Hi in Hdescriptor. by injection Hdescriptor. }
  split.
  - intros Hcall.
    assert (∃ attached, descriptor = newQueryV2 query attached) as [attached ->].
    { destruct Hcall as [Hcall | Hcall].
      - apply QueryMetricsV2_direct in Hcall
          as (first & rest & id & found & Hqueries & _ & _ & _ & _ & _ & Hrequest & _).
        rewrite <- Hqueries in Hrequest. eauto.
      - apply QueryMetricsV2_expression in Hcall
          as (first & rest & id & attached & Hqueries & _ & _ & _ & _ & _ & Hrequest & _).
        rewrite <- Hqueries in Hrequest. eauto. }
    unfold newQueryV2, simplejson.MustString, simplejson.Get. simpl.
    split; [by intros queryType -> | by intros ->].
  - intros Hcall.
    apply QueryMetrics_direct in Hcall
      as (first & rest & id & found & Hqueries & _ & _ & _ & Hrequest & _).
    rewrite <- Hqueries in Hrequest. by rewrite (Hbuilt _ _ Hrequest).
Qed.

Lemma query_type_forwarded_by_current_only_witness :
  tsdb.QueryType (newQueryV2 Samples.typedQuery (Some Fixtures.prometheus)) = "range"
  ∧ tsdb.QueryType (newQuery Samples.typedQuery (Some Fixtures.prometheus)) = "".
Proof.
  split.
  - apply (proj1 (proj1 (query_type_forwarded_by_current_only Fixtures.sentinel
                           Fixtures.healthy Fixtures.c
                           (Fixtures.batch [Samples.typedQuery])
                           (Some Fixtures.prometheus)
                           (requestOf Fixtures.c (Fixtures.batch [Samples.typedQuery])
                              (map (λ query, newQueryV2 query (Some Fixtures.prometheus))
                                 [Samples.typedQuery]))
                           0%nat Samples.typedQuery
                           (newQueryV2 Samples.typedQuery (Some Fixtures.prometheus))
                           eq_refl eq_refl)
                    (or_introl (or_intror (or_introl eq_refl))))
             "range").
    reflexivity.
  - apply (proj2 (query_type_forwarded_by_current_only Fixtures.sentinel
                    Fixtures.healthy Fixtures.c
                    (Fixtures.batch [Samples.typedQuery])
                    (Some Fixtures.prometheus)
                    (requestOf Fixtures.c (Fixtures.batch [Samples.typedQuery])
                       (map (λ query, newQuery query (Some Fixtures.prometheus))
                          [Samples.typedQuery]))
                    0%nat Samples.typedQuery
                    (newQuery Samples.typedQuery (Some Fixtures.prometheus))
                    eq_refl eq_refl)).
    vm_compute. right; left; reflexivity.
Defined.

(** ** The aggregator on its own *)

Lemma withErrorString_idempotent (res : tsdb.QueryResult) :
  withErrorString (withErrorString res) = withErrorString res.
Proof.
  unfold withErrorString.
  destruct (tsdb.Error res) as [err | ] eqn:Herr; simpl; [reflexivity | ].
  by rewrite Herr.
Qed.

Lemma withErrorString_Error (res : tsdb.QueryResult) :
  tsdb.Error (withErrorString res) = tsdb.Error res.
Proof.
  unfold withErrorString. by destruct (tsdb.Error res) as [err | ] eqn:Herr.
Qed.

Lemma aggregated_results_errors (results : list (string * tsdb.QueryResult)) :
  existsb (λ entry, carriesError entry.2)
    (map (λ entry, (entry.1, withErrorString entry.2)) results)
  = existsb (λ entry, carriesError entry.2) results
  ∧ lastError (map (λ entry, (entry.1, withErrorString entry.2)) results)
    = lastError results.
Proof.
  unfold lastError. split.
  - induction results as [ | [key res] results IH]; [reflexivity | ].
    simpl. rewrite IH. unfold carriesError. by rewrite withErrorString_Error.
  - f_equal. induction results as [ | [key res] results IH]; [reflexivity | ].
    simpl. rewrite withErrorString_Error.
    destruct (tsdb.Error res); [f_equal | ]; exact IH.
Qed.

(** X10: aggregating is idempotent. Aggregating an envelope that has
    already been aggregated gives the same status and leaves the envelope
    as it is. *)
Theorem aggregate_idempotent (resp : tsdb.Response) :
  aggregate (aggregate resp).2 = aggregate resp.
Proof.
  rewrite !aggregate_spec. simpl.
  unfold aggregatedStatus, aggregatedEnvelope. simpl.
  destruct (aggregated_results_errors (tsdb.Results resp)) as [-> ->].
  f_equal. f_equal.
  - rewrite map_map. apply map_ext. intros [key res]. simpl.
    by rewrite withErrorString_idempotent.
  - by destruct (lastError (tsdb.Results resp)).
Qed.

(** X11: an envelope in which no result carries an error passes the
    aggregation unchanged, message included, with status 200. *)
Theorem aggregate_identity_without_errors (resp : tsdb.Response) :
  Forall (λ entry, tsdb.Error entry.2 = None) (tsdb.Results resp) →
  aggregate resp = (200, resp).
Proof.
  intros Hclean. rewrite aggregate_spec.
  rewrite (proj2 (aggregatedStatus_ok resp) Hclean).
  f_equal. unfold aggregatedEnvelope, lastError. destruct resp as [results message].
  simpl in *. f_equal.
  - induction Hclean as [ | [key res] results Hnone _ IH]; [reflexivity | ].
    simpl in *. rewrite IH. unfold withErrorString. by rewrite Hnone.
  - replace (omap (λ entry : string * tsdb.QueryResult, tsdb.Error entry.2) results)
      with (@nil error); [reflexivity | ].
    induction Hclean as [ | [key res] results Hnone _ IH]; [reflexivity | ].
    simpl in *. by rewrite Hnone.
Qed.

Lemma aggregate_identity_without_errors_witness :
  aggregate Fixtures.cleanEnvelope = (200, Fixtures.cleanEnvelope).
Proof.
  apply aggregate_identity_without_errors. repeat constructor.
Defined.

(** X12: the aggregation writes nothing but error strings and the
    message.  The aggregated envelope has as many results as the
    backend's, under the same keys and in the same order; each result
    keeps its error, its reference id and its payload; a result without
    error is untouched. *)
Theorem aggregate_preserves_results (resp : tsdb.Response) :
  length (tsdb.Results (aggregate resp).2) = length (tsdb.Results resp)
  ∧ ∀ (i : nat) key res,
      tsdb.Results resp !! i = Some (key, res) →
      ∃ res',
        tsdb.Results (aggregate resp).2 !! i = Some (key, res')
        ∧ tsdb.Error res' = tsdb.Error res
        ∧ tsdb.ResultRefId res' = tsdb.ResultRefId res
        ∧ tsdb.Payload res' = tsdb.Payload res
        ∧ (tsdb.Error res = None → res' = res).
Proof.
  rewrite aggregate_spec. simpl. split.
  - by rewrite length_map.
  - intros i key res Hi. exists (withErrorString res).
    split; [by apply aggregatedEnvelope_lookup | ].
    unfold withErrorString.
    destruct (tsdb.Error res) as [err | ] eqn:Herr; by repeat split.
Qed.

Lemma aggregate_preserves_results_witness :
  ∃ res',
    tsdb.Results (aggregate Fixtures.partialEnvelope).2 !! 1%nat = Some ("B", res')
    ∧ res' = (Fixtures.succeeded "B").2.
Proof.
  destruct (proj2 (aggregate_preserves_results Fixtures.partialEnvelope)
              1%nat "B" (Fixtures.succeeded "B").2 eq_refl)
    as (res' & Hlookup & _ & _ & _ & Hsame).
  exists res'. split; [exact Hlookup | by apply Hsame].
Defined.

(** ** Failed resolutions under the two entry points *)

(** X13: the two entry points answer a failed resolution with the same
    status unless the resolver's error is a not-found error, which
    [QueryMetricsV2] answers 400 and [QueryMetrics] answers 500.  The
    classification looks through wrapped causes: wrapping a resolver
    error changes the status of neither entry point, and an error that
    wraps neither sentinel is answered 500 by both. *)
Theorem resolution_statuses_differ_on_not_found_only (text : string) (err : error) :
  (errors_Is err ErrDataSourceNotFound = false →
   Status (resolutionFailure err) = Status (resolutionFailureV2 err))
  ∧ (errors_Is err ErrDataSourceNotFound = true →
     Status (resolutionFailureV2 err) = 400 ∧ Status (resolutionFailure err) = 500)
  ∧ Status (resolutionFailureV2 (fmt_Errorf text err)) = Status (resolutionFailureV2 err)
  ∧ Status (resolutionFailure (fmt_Errorf text err)) = Status (resolutionFailure err)
  ∧ Status (resolutionFailureV2 (errors_New text)) = 500
  ∧ Status (resolutionFailure (errors_New text)) = 500.
Proof.
  split; [ | split; [apply not_found_classification | ]].
  - intros Hother. rewrite resolutionFailureV2_status, resolutionFailure_status.
    by rewrite Hother.
  - rewrite !resolutionFailureV2_status, !resolutionFailure_status. by simpl.
Qed.

Lemma resolution_statuses_differ_on_not_found_only_witness :
  Status (resolutionFailure (fmt_Errorf "org 1" ErrDataSourceAccessDenied)) = 403
  ∧ Status (resolutionFailureV2 (fmt_Errorf "lookup" ErrDataSourceNotFound)) = 400
  ∧ Status (resolutionFailure (fmt_Errorf "lookup" ErrDataSourceNotFound)) = 500.
Proof.
  split.
  - rewrite (proj1 (resolution_statuses_differ_on_not_found_only "org 1"
                      (fmt_Errorf "org 1" ErrDataSourceAccessDenied)) eq_refl).
    reflexivity.
  - apply (proj1 (proj2 (resolution_statuses_differ_on_not_found_only "lookup"
                           (fmt_Errorf "lookup" ErrDataSourceNotFound)))).
    reflexivity.
Defined.

(** ** The random-walk endpoint *)

(** X14: [GetTestDataRandomWalk] never calls the resolver; it makes
    exactly one call, to the time-series executor, for a single
    descriptor "A" with the requested interval against a data source of
    type "testdata".  It does not aggregate: when the executor returns an
    envelope the response is 200 with that envelope as it is, whether or
    not its results carry errors (the metrics handlers answer 400 to an
    envelope with an erroring result); when the executor fails the
    response is 500. *)
Theorem random_walk_not_aggregated (w : Collaborators) (noUser : models.SignedInUser)
    (from to : string) (intervalMs : Z) :
  let out := run (GetTestDataRandomWalk w noUser from to intervalMs) in
  resolutions out.1 = []
  ∧ (∃ ds request descriptor,
       out.1 = [HandleRequestCall (Some ds) request]
       ∧ models.Type_ ds = "testdata"
       ∧ tsdb.Queries request = [descriptor]
       ∧ tsdb.RefId descriptor = "A"
       ∧ tsdb.IntervalMs descriptor = intervalMs
       ∧ tsdb.DataSource descriptor = Some ds
       ∧ tsdb.TimeRange_ request = tsdb.NewTimeRange from to
       ∧ (∀ resp, tsdb_HandleRequest w (Some ds) request = inl resp →
            out.2 = JSON 200 (EnvelopeBody resp)
            ∧ (¬ Forall (λ entry, tsdb.Error entry.2 = None) (tsdb.Results resp) →
               Status out.2 ≠ (aggregate resp).1))
       ∧ (∀ err, tsdb_HandleRequest w (Some ds) request = inr err →
            out.2 = Error 500 "Metric request error" (Some err))).
Proof.
  intros out. subst out. unfold GetTestDataRandomWalk, run. handler_unfold.
  destruct (tsdb_HandleRequest w _ _) as [resp | err] eqn:Hbackend;
    (split; [reflexivity | ]); eexists _, _, _; simpl;
    split_and!; try reflexivity.
  - intros resp' Hok. rewrite Hbackend in Hok. injection Hok as <-.
    split; [reflexivity | ].
    intros Hbad. rewrite aggregate_spec. simpl.
    by rewrite (aggregatedStatus_bad _ Hbad).
  - intros err' Hfailed. rewrite Hbackend in Hfailed. discriminate.
  - intros resp' Hok. rewrite Hbackend in Hok. discriminate.
  - intros err' Hfailed. rewrite Hbackend in Hfailed. by injection Hfailed as <-.
Qed.

Lemma random_walk_not_aggregated_witness :
  Status (run (GetTestDataRandomWalk Fixtures.failing (models.User Fixtures.c)
                 "now-1h" "now" 500)).2 = 200
  ∧ (aggregate Fixtures.partialEnvelope).1 = 400.
Proof.
  destruct (random_walk_not_aggregated Fixtures.failing (models.User Fixtures.c)
              "now-1h" "now" 500)
    as (_ & ds & request & descriptor & Htrace & _ & _ & _ & _ & _ & _ & Hok & _).
  injection Htrace as <- <-.
  destruct (Hok Fixtures.partialEnvelope eq_refl) as [Hresponse Hdiffers].
  split; [by rewrite Hresponse | reflexivity].
Defined.

(** ** The scenario listing *)

Lemma String_leb_trans (a b c : string) :
  String.leb a b = true → String.leb b c = true → String.leb a c = true.
Proof.
  unfold String.leb.
  revert b c. induction a as [ | x a IH]; intros [ | y b] [ | z c]; simpl; try done.
  unfold Ascii.compare.
  destruct (N.compare_spec (Ascii.N_of_ascii x) (Ascii.N_of_ascii y)) as [Hxy | Hxy | Hxy];
    destruct (N.compare_spec (Ascii.N_of_ascii y) (Ascii.N_of_ascii z)) as [Hyz | Hyz | Hyz];
    try done.
  - rewrite Hxy, Hyz, N.compare_refl. apply IH.
  - rewrite Hxy. intros _ _. by rewrite (proj2 (N.compare_lt_iff _ _) Hyz).
  - rewrite <- Hyz. intros _ _. by rewrite (proj2 (N.compare_lt_iff _ _) Hxy).
  - intros _ _. by rewrite (proj2 (N.compare_lt_iff _ _) (N.lt_trans _ _ _ Hxy Hyz)).
Qed.

Global Instance string_le_transitive : Transitive string_le.
Proof. intros a b c. apply String_leb_trans. Qed.

Global Instance string_le_total : Total string_le.
Proof. intros a b. apply String.leb_total. Qed.

Global Instance string_le_antisymm : AntiSymm (=) string_le.
Proof. intros a b. apply String.leb_antisym. Qed.

(** Sorting strings has one outcome: any increasing rearrangement of the
    input is what [sort_Strings] returns. *)
Lemma sort_Strings_unique (l sorted : list string) :
  StronglySorted string_le sorted → sorted ≡ₚ l → sort_Strings l = sorted.
Proof.
  intros Hsorted Hperm. unfold sort_Strings.
  apply (StronglySorted_unique string_le).
  - apply StronglySorted_merge_sort; apply _.
  - exact Hsorted.
  - by rewrite merge_sort_Permutation, Hperm.
Qed.

Lemma collected_ids (visited ids : list string) :
  fold_left (λ ids id, (ids ++ [id])%list) visited ids = (ids ++ visited)%list.
Proof.
  revert ids. induction visited as [ | id visited IH]; intros ids; simpl.
  - by rewrite app_nil_r.
  - by rewrite IH, <- app_assoc.
Qed.

Lemma appendScenarios_registered (ScenarioRegistry : gmap string testdatasource.Scenario)
    (scenarioIds : list string) :
  Forall (λ id, is_Some (ScenarioRegistry !! id)) scenarioIds →
  ∀ result,
  ∃ scenarios,
    Forall2 (λ id scenario, ScenarioRegistry !! id = Some scenario) scenarioIds scenarios
    ∧ appendScenarios ScenarioRegistry scenarioIds result
      = Some (result ++ map scenarioDocument scenarios)%list.
Proof.
  induction 1 as [ | id scenarioIds [scenario Hscenario] _ IH]; intros result.
  - exists []. split; [constructor | ]. simpl. by rewrite app_nil_r.
  - destruct (IH (result ++ [scenarioDocument scenario])%list)
      as (scenarios & Hall & Happended).
    exists (scenario :: scenarios). split; [by constructor | ].
    simpl. rewrite Hscenario. simpl. by rewrite Happended, <- app_assoc.
Qed.

Lemma visited_registered (ScenarioRegistry : gmap string testdatasource.Scenario)
    (visited ids : list string) :
  visitsRegistry ScenarioRegistry visited → ids ≡ₚ visited →
  Forall (λ id, is_Some (ScenarioRegistry !! id)) ids.
Proof.
  unfold visitsRegistry. intros Hvisited Hids.
  apply Forall_forall. intros id Hid.
  rewrite Hids, Hvisited in Hid.
  apply list_elem_of_fmap in Hid as ([id' scenario] & -> & Hentry).
  apply elem_of_map_to_list in Hentry. simpl. eauto.
Qed.

Lemma GetTestDataScenarios_responds
    (ScenarioRegistry : gmap string testdatasource.Scenario) (visited : list string) :
  visitsRegistry ScenarioRegistry visited →
  is_Some (GetTestDataScenarios ScenarioRegistry visited).
Proof.
  intros Hvisited. unfold GetTestDataScenarios.
  rewrite collected_ids, app_nil_l.
  destruct (appendScenarios_registered ScenarioRegistry (sort_Strings visited)
              (visited_registered _ _ _ Hvisited (merge_sort_Permutation _ _)) [])
    as (scenarios & _ & ->).
  simpl. eauto.
Qed.

(** X15: when the keys of the scenario registry are visited in any order,
    [GetTestDataScenarios] answers 200 with exactly one document per
    registered scenario, in the increasing order of the registry keys,
    each built from the scenario registered under its key. *)
Theorem scenarios_sorted_and_complete
    (ScenarioRegistry : gmap string testdatasource.Scenario) (visited : list string) :
  visitsRegistry ScenarioRegistry visited →
  ∃ ids scenarios,
    GetTestDataScenarios ScenarioRegistry visited
    = Some (200, map scenarioDocument scenarios)
    ∧ ids ≡ₚ (map_to_list ScenarioRegistry).*1
    ∧ NoDup ids
    ∧ StronglySorted string_le ids
    ∧ Forall2 (λ id scenario, ScenarioRegistry !! id = Some scenario) ids scenarios
    ∧ length scenarios = size ScenarioRegistry.
Proof.
  intros Hvisited. unfold GetTestDataScenarios.
  rewrite collected_ids, app_nil_l.
  assert (sort_Strings visited ≡ₚ visited) as Hsorted
    by apply merge_sort_Permutation.
  destruct (appendScenarios_registered ScenarioRegistry (sort_Strings visited)
              (visited_registered _ _ _ Hvisited Hsorted) [])
    as (scenarios & Hall & ->).
  exists (sort_Strings visited), scenarios. simpl.
  split; [reflexivity | ]. split; [by rewrite Hsorted | ].
  split; [rewrite Hsorted, Hvisited; apply NoDup_fst_map_to_list | ].
  split; [apply StronglySorted_merge_sort; apply _ | ].
  split; [exact Hall | ].
  rewrite <- (Forall2_length _ _ _ Hall), Hsorted, Hvisited.
  by rewrite length_fmap, length_map_to_list.
Qed.

Lemma scenarios_sorted_and_complete_witness :
  ∃ scenarios,
    GetTestDataScenarios Samples.registry ["random_walk"; "csv_metric_values"]
    = Some (200, map scenarioDocument scenarios)
    ∧ length scenarios = 2%nat.
Proof.
  assert (visitsRegistry Samples.registry ["random_walk"; "csv_metric_values"])
    as Hvisited by (vm_compute; apply perm_swap).
  destruct (scenarios_sorted_and_complete Samples.registry
              ["random_walk"; "csv_metric_values"] Hvisited)
    as (ids & scenarios & Hresponse & _ & _ & _ & _ & Hlength).
  exists scenarios. split; [exact Hresponse | ].
  rewrite Hlength. reflexivity.
Defined.

(** X16: the response of [GetTestDataScenarios] does not depend on the
    order in which the registry is iterated: any two orders of visiting
    its keys give the same response. *)
Theorem scenarios_independent_of_iteration_order
    (ScenarioRegistry : gmap string testdatasource.Scenario)
    (visited visited' : list string) :
  visitsRegistry ScenarioRegistry visited →
  visitsRegistry ScenarioRegistry visited' →
  GetTestDataScenarios ScenarioRegistry visited
  = GetTestDataScenarios ScenarioRegistry visited'
  ∧ is_Some (GetTestDataScenarios ScenarioRegistry visited).
Proof.
  intros Hvisited Hvisited'. split.
  - unfold GetTestDataScenarios. rewrite !collected_ids, !app_nil_l.
    rewrite (sort_Strings_unique visited (sort_Strings visited')); [reflexivity | | ].
    + apply StronglySorted_merge_sort; apply _.
    + unfold sort_Strings. rewrite merge_sort_Permutation.
      unfold visitsRegistry in *. by rewrite Hvisited, Hvisited'.
  - by apply GetTestDataScenarios_responds.
Qed.

Lemma scenarios_independent_of_iteration_order_witness :
  GetTestDataScenarios Samples.registry ["random_walk"; "csv_metric_values"]
  = GetTestDataScenarios Samples.registry ["csv_metric_values"; "random_walk"].
Proof.
  apply scenarios_independent_of_iteration_order;
    vm_compute; [apply perm_swap | apply Permutation_refl].
Defined.

(** ** The pagination component *)

(** One step of the reduction appends what [itemFor] gives for the page
    number of the index. *)
Lemma reducer_itemFor (currentPage : Z) (numberOfPages : nat)
    (pagesToRender : list Pagination.ListItem) (pageIndex : Z) :
  Pagination.reducer currentPage numberOfPages pagesToRender pageIndex
  = (pagesToRender
     ++ match Pagination.itemFor currentPage numberOfPages (pageIndex + 1) with
        | Some item => [item]
        | None => []
        end)%list.
Proof.
  unfold Pagination.reducer, Pagination.itemFor, Pagination.getListItem,
    Pagination.PAGE_LENGTH_TO_CONDENSE.
  rewrite !Z.geb_leb.
  destruct (Z.leb_spec 10 (Z.of_nat numberOfPages)),
           (Z.ltb_spec (Z.of_nat numberOfPages) 10); try lia; [ | reflexivity].
  destruct (_ || _ || _); [reflexivity | ].
  destruct (_ || _); [reflexivity | by rewrite app_nil_r].
Qed.

Lemma listItems_itemFor (currentPage : Z) (numberOfPages : nat) :
  Pagination.listItems currentPage numberOfPages
  = omap (Pagination.itemFor currentPage numberOfPages)
      (Pagination.pageNumbers numberOfPages).
Proof.
  unfold Pagination.listItems, Pagination.pages, Pagination.pageNumbers.
  assert (∀ (indices : list nat) (rendered : list Pagination.ListItem),
            fold_left (Pagination.reducer currentPage numberOfPages)
              (map Z.of_nat indices) rendered
            = (rendered
               ++ omap (Pagination.itemFor currentPage numberOfPages)
                    (map (λ index : nat, Z.of_nat index + 1) indices))%list)
    as Hfold.
  { induction indices as [ | index indices IH]; intros rendered; simpl.
    - by rewrite app_nil_r.
    - rewrite IH, reducer_itemFor, <- app_assoc. f_equal.
      by destruct (Pagination.itemFor _ _ _). }
  by rewrite Hfold.
Qed.

Lemma elem_of_pageNumbers (numberOfPages : nat) (page : Z) :
  page ∈ Pagination.pageNumbers numberOfPages ↔ (1 ≤ page ≤ Z.of_nat numberOfPages)%Z.
Proof.
  unfold Pagination.pageNumbers.
  change (map ?f ?l) with (f <$> l). rewrite list_elem_of_fmap. split.
  - intros (index & -> & Hindex). apply elem_of_seq in Hindex. lia.
  - intros Hpage. exists (Z.to_nat (page - 1)). split; [lia | ].
    apply elem_of_seq. lia.
Qed.

(** An item is rendered exactly when [itemFor] yields it for one of the
    pages. *)
Lemma elem_of_listItems (currentPage : Z) (numberOfPages : nat)
    (item : Pagination.ListItem) :
  item ∈ Pagination.listItems currentPage numberOfPages ↔
  ∃ page, (1 ≤ page ≤ Z.of_nat numberOfPages)%Z
          ∧ Pagination.itemFor currentPage numberOfPages page = Some item.
Proof.
  rewrite listItems_itemFor, list_elem_of_omap.
  by setoid_rewrite elem_of_pageNumbers.
Qed.

Lemma itemFor_key (currentPage : Z) (numberOfPages : nat) (page : Z)
    (item : Pagination.ListItem) :
  Pagination.itemFor currentPage numberOfPages page = Some item →
  Pagination.key item = page.
Proof.
  unfold Pagination.itemFor. intros Hitem.
  repeat case_match; by simplify_eq.
Qed.

(** X17: with fewer than ten pages the component lists every page, from 1
    to the number of pages in order, as a button; the button of the
    current page is the primary one. *)
Theorem pagination_lists_all_pages_below_ten (currentPage : Z) (numberOfPages : nat) :
  (Z.of_nat numberOfPages < 10)%Z →
  Pagination.listItems currentPage numberOfPages
  = map (λ page,
           Pagination.PageButton page
             (if (page =? currentPage)%Z then Pagination.primary
              else Pagination.secondary))
      (Pagination.pageNumbers numberOfPages).
Proof.
  intros Hfew. rewrite listItems_itemFor.
  induction (Pagination.pageNumbers numberOfPages) as [ | page pages IH];
    [reflexivity | ].
  simpl. rewrite <- IH. unfold Pagination.itemFor at 1.
  by rewrite (proj2 (Z.ltb_lt _ _) Hfew).
Qed.

Lemma pagination_lists_all_pages_below_ten_witness :
  Pagination.listItems 2 3
  = [Pagination.PageButton 1 Pagination.secondary;
     Pagination.PageButton 2 Pagination.primary;
     Pagination.PageButton 3 Pagination.secondary].
Proof.
  rewrite (pagination_lists_all_pages_below_ten 2 3); [reflexivity | lia].
Defined.

Lemma StronglySorted_lt_NoDup (keys : list Z) :
  StronglySorted Z.lt keys → NoDup keys.
Proof.
  induction 1 as [ | key keys _ IH Hless]; constructor; [ | exact IH].
  intros Hin. rewrite Forall_forall in Hless. specialize (Hless key Hin). lia.
Qed.

(** The keys of the items rendered for a run of consecutive indices
    increase and lie above the first index. *)
Lemma itemFor_keys_sorted (currentPage : Z) (numberOfPages count : nat) :
  ∀ start : nat,
    StronglySorted Z.lt
      (map Pagination.key
         (omap (Pagination.itemFor currentPage numberOfPages)
            (map (λ index : nat, Z.of_nat index + 1) (seq start count))))
    ∧ Forall (λ key, (Z.of_nat start < key ≤ Z.of_nat (start + count))%Z)
        (map Pagination.key
           (omap (Pagination.itemFor currentPage numberOfPages)
              (map (λ index : nat, Z.of_nat index + 1) (seq start count)))).
Proof.
  induction count as [ | count IH]; intros start; simpl.
  - split; constructor.
  - destruct (IH (S start)) as [Hsorted Hrange].
    assert (Forall (λ key, (Z.of_nat start + 1 < key ≤ Z.of_nat (start + S count))%Z)
              (map Pagination.key
                 (omap (Pagination.itemFor currentPage numberOfPages)
                    (map (λ index : nat, Z.of_nat index + 1)
                       (seq (S start) count))))) as Hlater.
    { eapply Forall_impl; [exact Hrange | ]. simpl. intros key. lia. }
    destruct (Pagination.itemFor _ _ (Z.of_nat start + 1)) as [item | ] eqn:Hitem.
    + simpl. rewrite (itemFor_key _ _ _ _ Hitem). split.
      * constructor; [exact Hsorted | ].
        eapply Forall_impl; [exact Hlater | ]. simpl. intros key. lia.
      * constructor; [lia | ].
        eapply Forall_impl; [exact Hlater | ]. simpl. intros key. lia.
    + split; [exact Hsorted | ].
      eapply Forall_impl; [exact Hlater | ]. simpl. intros key. lia.
Qed.

(** X18: the keys of the rendered items increase strictly and lie between
    1 and the number of pages: no key is used twice, and the items appear
    in the order of the pages. *)
Theorem pagination_keys_increase (currentPage : Z) (numberOfPages : nat) :
  let keys := map Pagination.key (Pagination.listItems currentPage numberOfPages) in
  StronglySorted Z.lt keys
  ∧ NoDup keys
  ∧ Forall (λ key, (1 ≤ key ≤ Z.of_nat numberOfPages)%Z) keys.
Proof.
  intros keys. subst keys. rewrite listItems_itemFor. unfold Pagination.pageNumbers.
  destruct (itemFor_keys_sorted currentPage numberOfPages numberOfPages 0%nat)
    as [Hsorted Hrange].
  split; [exact Hsorted | ]. split; [by apply StronglySorted_lt_NoDup | ].
  eapply Forall_impl; [exact Hrange | ]. simpl. intros key. lia.
Qed.

(** X19: with ten pages or more, a page is listed as a button exactly
    when it is the first page, the last page, or at most two pages away
    from the current page, and a page is replaced by an ellipsis exactly
    when it is three pages away from the current page and is neither the
    first nor the last page; every other page is left out. *)
Theorem pagination_condensed_list (currentPage : Z) (numberOfPages : nat) :
  (10 ≤ Z.of_nat numberOfPages)%Z →
  (∀ page variant,
     Pagination.PageButton page variant
       ∈ Pagination.listItems currentPage numberOfPages ↔
     (1 ≤ page ≤ Z.of_nat numberOfPages)%Z
     ∧ (page = 1 ∨ page = Z.of_nat numberOfPages
        ∨ (currentPage - 2 ≤ page ≤ currentPage + 2)%Z)
     ∧ variant = (if (page =? currentPage)%Z then Pagination.primary
                  else Pagination.secondary))
  ∧ (∀ page,
       Pagination.Ellipsis page ∈ Pagination.listItems currentPage numberOfPages ↔
       (1 < page < Z.of_nat numberOfPages)%Z
       ∧ (page = currentPage - 3 ∨ page = currentPage + 3)).
Proof.
  intros Hmany.
  assert (∀ page,
            Pagination.itemFor currentPage numberOfPages page
            = if (page =? 1)%Z || (page =? Z.of_nat numberOfPages)%Z
                 || ((currentPage - 2 <=? page)%Z && (page <=? currentPage + 2)%Z)
              then Some (Pagination.PageButton page
                           (if (page =? currentPage)%Z then Pagination.primary
                            else Pagination.secondary))
              else if (page =? currentPage - 3)%Z || (page =? currentPage + 3)%Z
                   then Some (Pagination.Ellipsis page)
                   else None) as Hitem.
  { intros page. unfold Pagination.itemFor.
    by rewrite (proj2 (Z.ltb_ge _ _) Hmany). }
  split.
  - intros page variant. rewrite elem_of_listItems. split.
    + intros (page' & Hrange & Hfound). rewrite Hitem in Hfound.
      destruct ((page' =? 1)%Z || (page' =? Z.of_nat numberOfPages)%Z
                || ((currentPage - 2 <=? page')%Z && (page' <=? currentPage + 2)%Z))
        eqn:Hshown.
      * injection Hfound as <- <-. split; [exact Hrange | ]. split; [lia | reflexivity].
      * destruct ((page' =? currentPage - 3)%Z || (page' =? currentPage + 3)%Z);
          discriminate.
    + intros (Hrange & Hshown & ->). exists page. split; [exact Hrange | ].
      rewrite Hitem.
      replace ((page =? 1)%Z || (page =? Z.of_nat numberOfPages)%Z
               || ((currentPage - 2 <=? page)%Z && (page <=? currentPage + 2)%Z))
        with true by lia.
      reflexivity.
  - intros page. rewrite elem_of_listItems. split.
    + intros (page' & Hrange & Hfound). rewrite Hitem in Hfound.
      destruct ((page' =? 1)%Z || (page' =? Z.of_nat numberOfPages)%Z
                || ((currentPage - 2 <=? page')%Z && (page' <=? currentPage + 2)%Z))
        eqn:Hshown; [discriminate | ].
      destruct ((page' =? currentPage - 3)%Z || (page' =? currentPage + 3)%Z)
        eqn:Hdots; [ | discriminate].
      injection Hfound as <-. lia.
    + intros (Hrange & Hdots). exists page. split; [lia | ].
      rewrite Hitem.
      replace ((page =? 1)%Z || (page =? Z.of_nat numberOfPages)%Z
               || ((currentPage - 2 <=? page)%Z && (page <=? currentPage + 2)%Z))
        with false by lia.
      replace ((page =? currentPage - 3)%Z || (page =? currentPage + 3)%Z)
        with true by lia.
      reflexivity.
Qed.

Lemma pagination_condensed_list_witness :
  Pagination.Ellipsis 7 ∈ Pagination.listItems 10 20
  ∧ Pagination.PageButton 20 Pagination.secondary ∈ Pagination.listItems 10 20.
Proof.
  destruct (pagination_condensed_list 10 20) as [Hbutton Hdots]; [lia | ].
  split.
  - apply Hdots. lia.
  - apply Hbutton. split; [lia | ]. split; [lia | reflexivity].
Defined.

Lemma listItems_length_below_ten (currentPage : Z)
    (numberOfPages : nat) :
  (Z.of_nat numberOfPages < 10)%Z →
  length (Pagination.listItems currentPage numberOfPages) = numberOfPages.
Proof.
  intros Hfew. rewrite listItems_itemFor. unfold Pagination.pageNumbers.
  assert (∀ pages : list Z,
            length (omap (Pagination.itemFor currentPage numberOfPages) pages)
            = length pages) as Hall.
  { induction pages as [ | page pages IH]; [reflexivity | ].
    simpl. unfold Pagination.itemFor at 1.
    rewrite (proj2 (Z.ltb_lt _ _) Hfew). simpl. f_equal. exact IH. }
  by rewrite Hall, length_map, length_seq.
Qed.

(** With ten pages or more, the keys of the rendered items are pairwise
    distinct and are among the first page, the last page and the seven
    pages around the current one. *)
Lemma listItems_keys_condensed (currentPage : Z) (numberOfPages : nat) :
  (10 ≤ Z.of_nat numberOfPages)%Z →
  NoDup (map Pagination.key (Pagination.listItems currentPage numberOfPages))
  ∧ ∀ key,
      key ∈ map Pagination.key (Pagination.listItems currentPage numberOfPages) →
      key ∈ [1; Z.of_nat numberOfPages; currentPage - 3; currentPage - 2;
             currentPage - 1; currentPage; currentPage + 1; currentPage + 2;
             currentPage + 3].
Proof.
  intros Hmany. split.
  - apply StronglySorted_lt_NoDup.
    rewrite listItems_itemFor. unfold Pagination.pageNumbers.
    apply itemFor_keys_sorted.
  - intros key Hkey.
    change (map ?f ?l) with (f <$> l) in Hkey.
    apply list_elem_of_fmap in Hkey as (item & -> & Hitem).
    apply elem_of_listItems in Hitem as (page & Hrange & Hitem).
    rewrite (itemFor_key _ _ _ _ Hitem).
    unfold Pagination.itemFor in Hitem.
    rewrite (proj2 (Z.ltb_ge _ _) Hmany) in Hitem.
    assert (page = 1 ∨ page = Z.of_nat numberOfPages ∨ page = currentPage - 3
            ∨ page = currentPage - 2 ∨ page = currentPage - 1 ∨ page = currentPage
            ∨ page = currentPage + 1 ∨ page = currentPage + 2
            ∨ page = currentPage + 3) as Hwhich.
    { destruct ((page =? 1)%Z || (page =? Z.of_nat numberOfPages)%Z
                || ((currentPage - 2 <=? page)%Z && (page <=? currentPage + 2)%Z))
        eqn:Hshown; [lia | ].
      destruct ((page =? currentPage - 3)%Z || (page =? currentPage + 3)%Z)
        eqn:Hdots; [lia | discriminate]. }
    rewrite !elem_of_cons. tauto.
Qed.

(** X20: whatever the current page and the number of pages, the component
    never renders more than nine items between its arrow buttons. *)
Theorem pagination_at_most_nine_items (currentPage : Z) (numberOfPages : nat) :
  (length (Pagination.listItems currentPage numberOfPages) ≤ 9)%nat.
Proof.
  destruct (Z.lt_ge_cases (Z.of_nat numberOfPages) 10) as [Hfew | Hmany].
  - rewrite listItems_length_below_ten by exact Hfew. lia.
  - pose proof (listItems_keys_condensed currentPage numberOfPages Hmany)
      as [Hnodup Hamong].
    rewrite <- (length_map Pagination.key).
    change 9%nat
      with (length [1; Z.of_nat numberOfPages; currentPage - 3; currentPage - 2;
                    currentPage - 1; currentPage; currentPage + 1; currentPage + 2;
                    currentPage + 3]).
    apply submseteq_length, NoDup_submseteq; assumption.
Qed.

(** X21: the primary button is the button of the current page: it is
    rendered exactly when the current page is one of the pages, and no
    other page is rendered as a primary button. *)
Theorem pagination_highlights_current_page (currentPage : Z) (numberOfPages : nat)
    (page : Z) :
  Pagination.PageButton page Pagination.primary
    ∈ Pagination.listItems currentPage numberOfPages ↔
  page = currentPage ∧ (1 ≤ currentPage ≤ Z.of_nat numberOfPages)%Z.
Proof.
  rewrite elem_of_listItems. unfold Pagination.itemFor. split.
  - intros (page' & Hrange & Hitem).
    destruct (Z.eqb_spec page' currentPage) as [-> | Hother];
      repeat case_match; by simplify_eq.
  - intros [-> Hrange]. exists currentPage. split; [exact Hrange | ].
    rewrite Z.eqb_refl.
    replace ((currentPage - 2 <=? currentPage)%Z && (currentPage <=? currentPage + 2)%Z)
      with true by lia.
    rewrite !orb_true_r. by destruct (Z.of_nat numberOfPages <? 10)%Z.
Qed.

(** X22: when the current page is one of the pages, an arrow button that
    is not disabled navigates to a page that is listed as a button: the
    previous arrow is disabled exactly on the first page, the next arrow
    exactly on the last page, and otherwise their targets, the pages just
    before and just after the current one, are rendered. *)
Theorem pagination_arrows_reach_listed_pages (currentPage : Z) (numberOfPages : nat) :
  (1 ≤ currentPage ≤ Z.of_nat numberOfPages)%Z →
  let items := Pagination.listItems currentPage numberOfPages in
  (Pagination.disabled (Pagination.previous currentPage) = true ↔ currentPage = 1)
  ∧ (Pagination.disabled (Pagination.next currentPage numberOfPages) = true ↔
     currentPage = Z.of_nat numberOfPages)
  ∧ (Pagination.disabled (Pagination.previous currentPage) = false →
     Pagination.PageButton (Pagination.target (Pagination.previous currentPage))
       Pagination.secondary ∈ items)
  ∧ (Pagination.disabled (Pagination.next currentPage numberOfPages) = false →
     Pagination.PageButton (Pagination.target (Pagination.next currentPage numberOfPages))
       Pagination.secondary ∈ items).
Proof.
  intros Hrange items. subst items. simpl.
  assert (∀ page,
            (1 ≤ page ≤ Z.of_nat numberOfPages)%Z →
            (currentPage - 2 ≤ page ≤ currentPage + 2)%Z →
            page ≠ currentPage →
            Pagination.PageButton page Pagination.secondary
              ∈ Pagination.listItems currentPage numberOfPages) as Hnear.
  { intros page Hpage Hwindow Hother. apply elem_of_listItems.
    exists page. split; [exact Hpage | ]. unfold Pagination.itemFor.
    replace (page =? currentPage)%Z with false by lia.
    replace ((currentPage - 2 <=? page)%Z && (page <=? currentPage + 2)%Z)
      with true by lia.
    rewrite !orb_true_r. by destruct (Z.of_nat numberOfPages <? 10)%Z. }
  split; [apply Z.eqb_eq | ]. split; [apply Z.eqb_eq | ].
  split; intros Henabled; apply Z.eqb_neq in Henabled; apply Hnear; lia.
Qed.

Lemma pagination_arrows_reach_listed_pages_witness :
  Pagination.PageButton 9 Pagination.secondary ∈ Pagination.listItems 10 20
  ∧ Pagination.PageButton 11 Pagination.secondary ∈ Pagination.listItems 10 20.
Proof.
  destruct (pagination_arrows_reach_listed_pages 10 20) as (_ & _ & Hprevious & Hnext);
    [lia | ].
  split; [by apply Hprevious | by apply Hnext].
Defined.
